(** * IMDb scraper: a shallow embedding of [imdb_scraper.py]

  The development follows the source file top to bottom.

  - [PyStr]: the [str] operations the scraper relies on ([strip] with a
    character set, f-string interpolation of [len], UTF-8 encoding).
  - [Exc]: the exception classes that reach one of the three [except]
    clauses, with their superclass chains.
  - [Soup]: the parsed document tree and the three queries the scraper
    makes of it ([find_all], [find], [.text]).
  - [Scraper]: the class [IMDbScraper] itself, written in a state and
    exception monad over the observable world (requests issued, tree
    lookups made, log records emitted, files opened and written).

  A [str] is written as the bytes of its UTF-8 form (see [PyStr]); its
  Unicode case mapping, [str.lower], is a table of the interpreter and is
  taken from the environment.  A page is the tree the HTML parser has
  already built, each string with the class the parser gave it, so the
  parser itself is outside the model. *)

From Stdlib Require Import ZArith String Ascii List Bool.
From stdpp Require Import base option list gmap sets strings pretty.

Set Warnings "-register-all".
Local Open Scope Z_scope.

(** ** Python strings *)

Module PyStr.

(** The empty string, the way the rest of the file writes it. *)
Abbreviation nil_str := EmptyString.

Definition chr (n : nat) : string := String (ascii_of_nat n) nil_str.

(** [c in chars], on characters. *)
Definition mem_char (c : ascii) (chars : string) : bool :=
  existsb (Ascii.eqb c) (list_ascii_of_string chars).

(** [s.lstrip(chars)]: drop leading characters while they are in [chars]. *)
Fixpoint lstrip (chars s : string) : string :=
  match s with
  | EmptyString => nil_str
  | String c s' => if mem_char c chars then lstrip chars s' else s
  end.

(** [s.rstrip(chars)]: drop trailing characters while they are in [chars];
    a character stays when something after it stays, or when it is not in
    [chars]. *)
Fixpoint rstrip (chars s : string) : string :=
  match s with
  | EmptyString => nil_str
  | String c s' =>
      match rstrip chars s' with
      | EmptyString => if mem_char c chars then nil_str else String c nil_str
      | kept => String c kept
      end
  end.

(** [s.strip(chars)]: both ends, any number of characters of the set. *)
Definition strip (chars s : string) : string :=
  rstrip chars (lstrip chars s).

Definition ascii_lower_char (c : ascii) : ascii :=
  let n := nat_of_ascii c in
  if ((65 <=? n)%nat && (n <=? 90)%nat)%bool then ascii_of_nat (n + 32) else c.

(** The ASCII part of the case mapping: A to Z go to a to z and every
    other byte stays.  This is what [str.lower] does on ASCII text; on other
    text the interpreter's Unicode table decides, which the environment of
    the scraper supplies (its [str_lower]).  The fixtures use this one. *)
Fixpoint ascii_lower (s : string) : string :=
  match s with
  | EmptyString => nil_str
  | String c s' => String (ascii_lower_char c) (ascii_lower s')
  end.

(** [sep.join(l)]. *)
Fixpoint join (sep : string) (l : list string) : string :=
  match l with
  | [] => nil_str
  | [x] => x
  | x :: l' => x +:+ sep +:+ join sep l'
  end.

(** [f"{len(l)}"]. *)
Definition str_len {A} (l : list A) : string := pretty (length l).

(** The characters [str.strip()] without argument removes. *)
Definition is_whitespace (c : ascii) : bool :=
  let n := nat_of_ascii c in
  ((n =? 32)%nat || ((9 <=? n)%nat && (n <=? 13)%nat)
   || ((28 <=? n)%nat && (n <=? 31)%nat))%bool.

Definition first_char (s : string) : option ascii :=
  match s with EmptyString => None | String c _ => Some c end.

Fixpoint last_char (s : string) : option ascii :=
  match s with
  | EmptyString => None
  | String c EmptyString => Some c
  | String _ s' => last_char s'
  end.

(** Every character of [s] is in [chars]. *)
Definition all_in (chars s : string) : bool :=
  forallb (fun c => mem_char c chars) (list_ascii_of_string s).

(** [c not in chars], for a character that may be missing. *)
Definition not_in (chars : string) (o : option ascii) : bool :=
  match o with None => true | Some c => negb (mem_char c chars) end.

(** *** Text and its UTF-8 form

    A [str] is written here as the bytes of its UTF-8 form.  A lone
    surrogate (U+D800 to U+DFFF), which a [str] can hold but the UTF-8 codec
    refuses, is written as the three bytes ED, A0..BF, 80..BF. *)

(** A byte that continues a character. *)
Definition is_continuation (c : ascii) : bool :=
  let n := nat_of_ascii c in ((128 <=? n)%nat && (n <=? 191)%nat)%bool.

(** The bytes [c d] open a surrogate. *)
Definition opens_surrogate (c d : ascii) : bool :=
  ((nat_of_ascii c =? 237)%nat
   && (160 <=? nat_of_ascii d)%nat && (nat_of_ascii d <=? 191)%nat)%bool.

(** [s.encode('utf-8')] succeeds: no surrogate in [s]. *)
Fixpoint encodable (s : string) : bool :=
  match s with
  | String c (String d _ as s') =>
      if opens_surrogate c d then false else encodable s'
  | _ => true
  end.

(** The first surrogate of [s]: its index, counted in characters from
    [pos], and the text from there on. *)
Fixpoint first_surrogate (pos : nat) (s : string) : option (nat * string) :=
  match s with
  | String c (String d _ as s') =>
      if opens_surrogate c d then Some (pos, s)
      else first_surrogate (if is_continuation c then pos else S pos) s'
  | _ => None
  end.

(** How many surrogates follow one another at the head of [s]. *)
Fixpoint surrogate_run (s : string) : nat :=
  match s with
  | String c (String d (String _ rest)) =>
      if opens_surrogate c d then S (surrogate_run rest) else O
  | _ => O
  end.

Definition hex_digit (n : nat) : string :=
  chr (if (n <? 10)%nat then 48 + n else 87 + n).

(** The last three hex digits of the surrogate at the head of [s]; the
    first is always d. *)
Definition surrogate_hex (s : string) : string :=
  match s with
  | String _ (String d (String e _)) =>
      let hi := (nat_of_ascii d - 128)%nat in
      let lo := (nat_of_ascii e - 128)%nat in
      hex_digit (hi / 4) +:+ hex_digit ((hi mod 4) * 4 + lo / 16)
                +:+ hex_digit (lo mod 16)
  | _ => nil_str
  end.

(** [str(e)] for the UnicodeEncodeError the codec raises on [s]: it names
    the first surrogate, or the positions of the first run of them. *)
Definition surrogates_not_allowed (s : string) : string :=
  match first_surrogate 0 s with
  | None => nil_str
  | Some (pos, rest) =>
      let n := surrogate_run rest in
      if (n <=? 1)%nat
      then "'utf-8' codec can't encode character '\ud" +:+ surrogate_hex rest
             +:+ "' in position " +:+ pretty pos +:+ ": surrogates not allowed"
      else "'utf-8' codec can't encode characters in position " +:+ pretty pos
             +:+ "-" +:+ pretty (pos + n - 1)%nat
             +:+ ": surrogates not allowed"
  end.

End PyStr.

(** ** Exceptions *)

Module Exc.

(** The classes that can reach the scraper's handlers.  [IOError] is an
    alias of [OSError]; [requests.RequestException] derives from it. *)
Inductive exc_class :=
| BaseException | KeyboardInterrupt
| Exception | AttributeError | ValueError | UnicodeError | UnicodeEncodeError
| OSError | RequestException | ConnectionError | Timeout.

#[global] Instance exc_class_eq_dec : EqDecision exc_class.
Proof. solve_decision. Defined.

Definition IOError := OSError.

(** Direct superclass. *)
Definition base (c : exc_class) : option exc_class :=
  match c with
  | BaseException => None
  | KeyboardInterrupt => Some BaseException
  | Exception => Some BaseException
  | AttributeError => Some Exception
  | ValueError => Some Exception
  | UnicodeError => Some ValueError
  | UnicodeEncodeError => Some UnicodeError
  | OSError => Some Exception
  | RequestException => Some OSError
  | ConnectionError => Some RequestException
  | Timeout => Some RequestException
  end.

(** The class and its ancestors; the hierarchy is at most five deep. *)
Fixpoint mro_from (fuel : nat) (c : exc_class) : list exc_class :=
  match fuel with
  | O => [c]
  | S fuel' =>
      match base c with
      | None => [c]
      | Some b => c :: mro_from fuel' b
      end
  end.

Definition mro (c : exc_class) : list exc_class := mro_from 5 c.

Definition issubclass (c d : exc_class) : bool :=
  bool_decide (d ∈ mro c).

Record exc := mk_exc { exc_type : exc_class; exc_str : string }.

(** [isinstance(e, cls)], what an [except cls] clause tests. *)
Definition isinstance (e : exc) (cls : exc_class) : bool :=
  issubclass (exc_type e) cls.

(** Attribute access on [None]. *)
Definition none_has_no (attr : string) : exc :=
  mk_exc AttributeError
    ("'NoneType' object has no attribute '" +:+ attr +:+ "'").

End Exc.

(** ** The parsed document and BeautifulSoup's queries *)

Module Soup.

(** The subclasses of NavigableString the parser uses: markup that is not
    text (CDATA sections, comments, declarations, doctypes, processing
    instructions), and the strings it reads inside a script, style,
    template, rt or rp element. *)
Inductive string_class :=
| CData | Comment | Declaration | Doctype | ProcessingInstruction
| Script | Stylesheet | TemplateString | RubyTextString | RubyParenthesisString.

#[global] Instance string_class_eq_dec : EqDecision string_class.
Proof. solve_decision. Defined.

(** A node of the tree as the parser built it: a plain text string (class
    NavigableString itself), a string of one of the subclasses, or a tag
    with its name, the values of its [class] attribute (none when the
    attribute is absent) and its children in document order.  The text the
    parser read inside [<script>] is a [SubclassString Script], not a plain
    string, and likewise for style, template, rt and rp. *)
Inductive node :=
| NavigableString (s : string)
| SubclassString (c : string_class) (s : string)
| Tag (name : string) (class : list string) (contents : list node).

(** [node.descendants]: every node below [n], in document order. *)
Fixpoint descendants (n : node) : list node :=
  match n with
  | NavigableString _ => []
  | SubclassString _ _ => []
  | Tag _ _ cs => flat_map (fun c => c :: descendants c) cs
  end.

(** The builder's [string_containers]: the tags whose strings get a class
    of their own. *)
Definition string_containers (name : string) : option string_class :=
  if String.eqb name "rt" then Some RubyTextString
  else if String.eqb name "rp" then Some RubyParenthesisString
  else if String.eqb name "style" then Some Stylesheet
  else if String.eqb name "script" then Some Script
  else if String.eqb name "template" then Some TemplateString
  else None.

(** A string class, [None] standing for NavigableString itself. *)
Definition main_content (c : option string_class) : bool :=
  match c with None => true | Some CData => true | Some _ => false end.

(** [tag.interesting_string_types]: the one class of a string container,
    NavigableString and CData for every other tag. *)
Definition interesting_string_types (name : string) (c : option string_class)
  : bool :=
  match string_containers name with
  | Some k => bool_decide (c = Some k)
  | None => main_content c
  end.

(** The strings at and below [n] whose class is one of [types],
    concatenated in document order. *)
Fixpoint all_strings (types : option string_class -> bool) (n : node) : string :=
  match n with
  | NavigableString s => if types None then s else PyStr.nil_str
  | SubclassString c s => if types (Some c) then s else PyStr.nil_str
  | Tag _ _ cs =>
      fold_right (fun c acc => all_strings types c +:+ acc) PyStr.nil_str cs
  end.

(** [node.text]: the strings below the node that are of its interesting
    classes.  For an anchor, a span or a strong element that is the plain
    text and the CDATA below it; comments and the contents of script,
    style, template, rt and rp elements are left out. *)
Definition text (n : node) : string :=
  match n with
  | Tag name _ _ => all_strings (interesting_string_types name) n
  | _ => all_strings main_content n
  end.

(** [class_=c] matches a tag one of whose class values is [c], or whose
    whole attribute value is [c]. *)
Definition class_matches (c : string) (cls : list string) : bool :=
  (existsb (String.eqb c) cls
   || (negb (bool_decide (cls = [])) && String.eqb (PyStr.join " " cls) c))%bool.

(** The filter built from [find(name, class_=...)]: tags only. *)
Definition matches (name : string) (class_ : option string) (n : node) : bool :=
  match n with
  | NavigableString _ => false
  | SubclassString _ _ => false
  | Tag nm cls _ =>
      (String.eqb nm name
       && match class_ with
          | None => true
          | Some c => class_matches c cls
          end)%bool
  end.

(** The result loop of [find_all]: a match is appended, and the loop
    breaks when [limit] is truthy and [len(results) >= limit]. *)
Fixpoint collect (name : string) (class_ : option string) (limit : Z)
         (generator : list node) (results : list node) : list node :=
  match generator with
  | [] => results
  | i :: rest =>
      if matches name class_ i then
        let results' := results ++ [i] in
        if (negb (limit =? 0) && (limit <=? Z.of_nat (length results')))%bool
        then results'
        else collect name class_ limit rest results'
      else collect name class_ limit rest results
  end.

(** [n.find_all(name, class_=..., limit=limit)]. *)
Definition find_all (n : node) (name : string) (class_ : option string)
           (limit : Z) : list node :=
  collect name class_ limit (descendants n) [].

(** [n.find(name, class_=...)]: [find_all] with limit 1, first result or
    [None]. *)
Definition find (n : node) (name : string) (class_ : option string)
  : option node :=
  head (find_all n name class_ 1).

End Soup.

(** ** The scraper *)

Module Scraper.
Import PyStr Exc Soup.

(** A movie is a Python [dict] from field names to text. *)
Abbreviation movie := (gmap string string).

(** *** The world the methods act on *)

Inductive level := DEBUG | INFO | WARNING | ERROR.

Definition levelno (l : level) : Z :=
  match l with DEBUG => 10 | INFO => 20 | WARNING => 30 | ERROR => 40 end.

(** One call of [find] on a node of the tree. *)
Inductive query := Find (n : node) (name : string) (class_ : option string).

(** What [requests.get] does for a URL: raise, or hand back a page. *)
Inductive response := GetRaises (e : exc) | GetContent (soup : node).

(** What the file system does for a path opened for writing: nothing
    special, an exception out of [open], or an exception when the buffered
    data is flushed, after [kept] bytes reached the file. *)
Inductive fs_fault := NoFault | OpenFault (e : exc) | WriteFault (kept : nat) (e : exc).

(** What the program is given: the network, the file system, and the
    interpreter's Unicode case mapping [str.lower]. *)
Record env := mk_env {
  http_get : string -> response;
  fs_fault_at : string -> fs_fault;
  str_lower : string -> string
}.

(** What the program has done so far. *)
Record world := mk_world {
  requests : list string;            (* URLs fetched, oldest first *)
  queries : list query;              (* [find] calls on item nodes *)
  log : list (level * string);       (* records the root logger emitted *)
  opened : list string;              (* paths given to [open(_, 'w')] *)
  files : gmap string string         (* the file system's contents *)
}.

Definition add_request (url : string) (w : world) : world :=
  mk_world (requests w ++ [url]) (queries w) (log w) (opened w) (files w).

Definition add_query (q : query) (w : world) : world :=
  mk_world (requests w) (queries w ++ [q]) (log w) (opened w) (files w).

Definition add_log (l : level) (msg : string) (w : world) : world :=
  mk_world (requests w) (queries w) (log w ++ [(l, msg)]) (opened w) (files w).

Definition add_opened (path : string) (w : world) : world :=
  mk_world (requests w) (queries w) (log w) (opened w ++ [path]) (files w).

Definition set_file (path data : string) (w : world) : world :=
  mk_world (requests w) (queries w) (log w) (opened w) (<[path := data]> (files w)).

(** *** The monad: a method body runs over its local list [movies] and the
    world, and returns or raises. *)

Inductive result (A : Type) := Returns (a : A) | Raises (e : exc).
Arguments Returns {A} a.
Arguments Raises {A} e.

Definition M (A : Type) : Type :=
  list movie -> world -> result A * list movie * world.

Definition ret {A} (a : A) : M A := fun ms w => (Returns a, ms, w).

Definition raise {A} (e : exc) : M A := fun ms w => (Raises e, ms, w).

Definition bind {A B} (m : M A) (k : A -> M B) : M B :=
  fun ms w =>
    match m ms w with
    | (Returns a, ms', w') => k a ms' w'
    | (Raises e, ms', w') => (Raises e, ms', w')
    end.

Notation "x <~ m ;; k" := (bind m (fun x => k))
  (at level 20, m at level 99, k at level 200, only parsing).
Notation "m >>> k" := (bind m (fun _ => k))
  (at level 20, k at level 200, only parsing).

(** [try: body / except cls as e: handler e]. *)
Definition try_except {A} (body : M A) (cls : exc_class) (handler : exc -> M A)
  : M A :=
  fun ms w =>
    match body ms w with
    | (Returns a, ms', w') => (Returns a, ms', w')
    | (Raises e, ms', w') =>
        if isinstance e cls then handler e ms' w' else (Raises e, ms', w')
    end.

(** [for x in xs: body x]. *)
Fixpoint for_each {A} (xs : list A) (body : A -> M unit) : M unit :=
  match xs with
  | [] => ret tt
  | x :: xs' => body x >>> for_each xs' body
  end.

(** [movies.append(m)]. *)
Definition append (m : movie) : M unit :=
  fun ms w => (Returns tt, ms ++ [m], w).

(** [logging.basicConfig(level=logging.INFO)]: the root logger drops
    records below INFO. *)
Definition root_level : level := INFO.

Definition logging (l : level) (msg : string) : M unit :=
  fun ms w =>
    if levelno root_level <=? levelno l
    then (Returns tt, ms, add_log l msg w)
    else (Returns tt, ms, w).

(** [requests.get(url, headers=self.headers, timeout=10)] followed by
    [BeautifulSoup(response.content, 'html.parser')]. *)
Definition get_soup (e : env) (url : string) : M node :=
  fun ms w =>
    match http_get e url with
    | GetRaises ex => (Raises ex, ms, add_request url w)
    | GetContent soup => (Returns soup, ms, add_request url w)
    end.

(** [o.find(name, class_=...)] where [o] may be [None]. *)
Definition py_find (o : option node) (name : string) (class_ : option string)
  : M (option node) :=
  match o with
  | None => raise (none_has_no "find")
  | Some n =>
      fun ms w => (Returns (find n name class_), ms, add_query (Find n name class_) w)
  end.

(** [o.text] where [o] may be [None]. *)
Definition py_text (o : option node) : M string :=
  match o with
  | None => raise (none_has_no "text")
  | Some n => ret (text n)
  end.

(** The value a method hands to its caller: [return movies] reads the
    local list as the body left it. *)
Definition return_movies (body : M unit) (w : world)
  : result (list movie) * world :=
  match body [] w with
  | (Returns _, ms, w') => (Returns ms, w')
  | (Raises e, _, w') => (Raises e, w')
  end.

(** *** class IMDbScraper *)

Definition BASE_URL : string := "https://www.imdb.com".

(** [{'title': title, 'year': year, 'rating': rating}] *)
Definition top_record (title year rating : string) : movie :=
  <["title" := title]> (<["year" := year]> (<["rating" := rating]> ∅)).

(** [{'title': title, 'genre': genre, 'rating': rating}] *)
Definition genre_record (title genre rating : string) : movie :=
  <["title" := title]> (<["genre" := genre]> (<["rating" := rating]> ∅)).

(** The three field lookups of a top-chart row. *)
Definition top_title (row : node) : M string :=
  td <~ py_find (Some row) "td" (Some "titleColumn") ;;
  a <~ py_find td "a" None ;;
  py_text a.

Definition top_year (row : node) : M string :=
  td <~ py_find (Some row) "td" (Some "titleColumn") ;;
  span <~ py_find td "span" None ;;
  t <~ py_text span ;;
  ret (strip "()" t).

Definition top_rating (row : node) : M string :=
  td <~ py_find (Some row) "td" (Some "ratingColumn imdbRating") ;;
  strong <~ py_find td "strong" None ;;
  py_text strong.

(** The body of the [for row in rows] loop. *)
Definition top_row (row : node) : M unit :=
  try_except
    (title <~ top_title row ;;
     year <~ top_year row ;;
     rating <~ top_rating row ;;
     append (top_record title year rating))
    Exception
    (fun e => logging ERROR ("Error parsing movie: " +:+ exc_str e)).

Definition top_url : string := BASE_URL +:+ "/chart/top250/".

Definition scrape_top_movies_body (e : env) (limit : Z) : M unit :=
  try_except
    (soup <~ get_soup e top_url ;;
     for_each (find_all soup "tr" None limit) top_row >>>
     (fun ms w =>
        logging INFO ("Successfully scraped " +:+ str_len ms +:+ " movies") ms w))
    RequestException
    (fun ex => logging ERROR ("Request error: " +:+ exc_str ex)).

Definition scrape_top_movies (e : env) (limit : Z) (w : world)
  : result (list movie) * world :=
  return_movies (scrape_top_movies_body e limit) w.

(** The body of the [for item in items] loop. *)
Definition genre_item (genre : string) (item : node) : M unit :=
  try_except
    (title_div <~ py_find (Some item) "h3" (Some "lister-item-header") ;;
     rating_div <~ py_find (Some item) "div" (Some "ratings-bar") ;;
     match title_div, rating_div with
     | Some _, Some _ =>
         a <~ py_find title_div "a" None ;;
         title <~ py_text a ;;
         strong <~ py_find rating_div "strong" None ;;
         rating <~ py_text strong ;;
         append (genre_record title genre rating)
     | _, _ => ret tt
     end)
    Exception
    (fun e => logging DEBUG ("Parse error: " +:+ exc_str e)).

Definition genre_url (e : env) (genre : string) : string :=
  BASE_URL +:+ "/search/title/?genres=" +:+ str_lower e genre
           +:+ "&sort=user_rating,-popularity".

Definition scrape_by_genre_body (e : env) (genre : string) : M unit :=
  try_except
    (soup <~ get_soup e (genre_url e genre) ;;
     for_each (find_all soup "div" (Some "lister-item") 50) (genre_item genre) >>>
     (fun ms w =>
        logging INFO ("Scraped " +:+ str_len ms +:+ " " +:+ genre +:+ " movies") ms w))
    Exception
    (fun ex => logging ERROR ("Error scraping genre: " +:+ exc_str ex)).

Definition scrape_by_genre (e : env) (genre : string) (w : world)
  : result (list movie) * world :=
  return_movies (scrape_by_genre_body e genre) w.

(** *** export_to_csv *)

Definition fieldnames : list string := ["title"; "year"; "rating"].

Definition quotechar : string := chr 34.
Definition lineterminator : string := chr 13 +:+ chr 10.

(** The csv writer quotes a field that holds the delimiter, the quote
    character or a line break (QUOTE_MINIMAL), doubling the quotes in it. *)
Definition needs_quotes (field : string) : bool :=
  existsb (fun c => mem_char c ("," +:+ quotechar +:+ lineterminator))
          (list_ascii_of_string field).

Fixpoint double_quotes (field : string) : string :=
  match field with
  | EmptyString => nil_str
  | String c s =>
      if Ascii.eqb c (ascii_of_nat 34)
      then String c (String c (double_quotes s))
      else String c (double_quotes s)
  end.

Definition csv_field (field : string) : string :=
  if needs_quotes field
  then quotechar +:+ double_quotes field +:+ quotechar
  else field.

(** [writer.writerow(fields)], as the text it adds to the file. *)
Definition csv_row (fields : list string) : string :=
  join "," (map csv_field fields) +:+ lineterminator.

(** [rowdict.keys() - self.fieldnames] *)
Definition wrong_fields (rowdict : movie) : list string :=
  filter (fun k => k ∉ fieldnames) (elements (dom rowdict)).

Definition repr (s : string) : string := "'" +:+ s +:+ "'".

(** [DictWriter._dict_to_list] with the default [extrasaction='raise'] and
    [restval='']. *)
Definition dict_to_list (rowdict : movie) : exc + list string :=
  match wrong_fields rowdict with
  | [] => inr (map (fun k => default nil_str (rowdict !! k)) fieldnames)
  | wrong =>
      inl (mk_exc ValueError
             ("dict contains fields not in fieldnames: "
                +:+ join ", " (map repr wrong)))
  end.

(** [f.write(line)] on the file opened with [encoding='utf-8']: the line
    is encoded as it is written, and a surrogate in it raises
    UnicodeEncodeError. *)
Definition write_error (line : string) : option exc :=
  if encodable line then None
  else Some (mk_exc UnicodeEncodeError (surrogates_not_allowed line)).

(** [writer.writerows(movies)] onto the text written so far: rows go out
    one by one until one of them raises, for its keys or for its text. *)
Fixpoint writerows (rowdicts : list movie) (written : string)
  : string * option exc :=
  match rowdicts with
  | [] => (written, None)
  | d :: rest =>
      match dict_to_list d with
      | inl ex => (written, Some ex)
      | inr fields =>
          match write_error (csv_row fields) with
          | Some ex => (written, Some ex)
          | None => writerows rest (written +:+ csv_row fields)
          end
      end
  end.

(** [writer.writeheader()] then [writer.writerows(movies)]; the header
    line is plain ASCII. *)
Definition with_body (movies : list movie) : string * option exc :=
  writerows movies (csv_row fieldnames).

(** [with open(filename, 'w', ...) as f: body]: the open truncates the
    file; leaving the block closes it, which flushes what was written, and
    an exception raised by the flush replaces one raised by the body. *)
Definition with_open_w (e : env) (filename : string)
           (body : string * option exc) : M unit :=
  fun ms w =>
    let w1 := add_opened filename w in
    match fs_fault_at e filename with
    | OpenFault ex => (Raises ex, ms, w1)
    | WriteFault kept ex =>
        (Raises ex, ms, set_file filename (substring 0 kept (fst body)) w1)
    | NoFault =>
        let w2 := set_file filename (fst body) w1 in
        match snd body with
        | Some ex => (Raises ex, ms, w2)
        | None => (Returns tt, ms, w2)
        end
    end.

Definition export_to_csv_body (e : env) (movies : list movie)
           (filename : string) : M unit :=
  match movies with
  | [] => logging WARNING "No movies to export"
  | _ =>
      try_except
        (with_open_w e filename (with_body movies) >>>
         logging INFO ("Exported " +:+ str_len movies +:+ " movies to "
                         +:+ filename))
        IOError
        (fun ex => logging ERROR ("File write error: " +:+ exc_str ex))
  end.

(** The method returns [None]; it has no local list of its own. *)
Definition export_to_csv (e : env) (movies : list movie) (filename : string)
           (w : world) : result unit * world :=
  match export_to_csv_body e movies filename [] w with
  | (r, _, w') => (r, w')
  end.

End Scraper.

(** ** Vocabulary of the statements *)

Module Claims.
Import PyStr Exc Soup Scraper.

(** A world in which nothing has happened yet. *)
Definition empty_world : world := mk_world [] [] [] [] ∅.

(** The list a call handed back, empty when it raised. *)
Definition returned (r : result (list movie) * world) : list movie :=
  match fst r with Returns ms => ms | Raises _ => [] end.

(** What one run of a loop body on [row] appends. *)
Definition row_yield (body : node -> M unit) (row : node) : list movie :=
  snd (fst (body row [] empty_world)).

(** A field lookup that raises instead of giving a text. *)
Definition lookup_fails (lookup : M string) : bool :=
  match fst (fst (lookup [] empty_world)) with
  | Returns _ => false
  | Raises _ => true
  end.

(** The field is present and its text is not empty. *)
Definition filled (r : movie) (field : string) : Prop :=
  exists v, r !! field = Some v /\ v <> nil_str.

(** The text neither begins nor ends with a whitespace character. *)
Definition no_space (o : option ascii) : bool :=
  match o with None => true | Some c => negb (is_whitespace c) end.

Definition trimmed (v : string) : Prop :=
  no_space (first_char v) = true /\ no_space (last_char v) = true.

(** Year normalization read as the removal of exactly one enclosing pair:
    a leading [(] and a trailing [)] are dropped when both are there. *)
Fixpoint drop_last (s : string) : string :=
  match s with
  | EmptyString => nil_str
  | String c EmptyString => nil_str
  | String c s' => String c (drop_last s')
  end.

Definition strip_one_pair (s : string) : string :=
  match s with
  | String "(" s' =>
      if bool_decide (last_char s' = Some ")"%char) then drop_last s' else s
  | _ => s
  end.

(** The record holds the three texts of [row]: its anchor's, its span's
    without the parentheses at either end, and its strong element's. *)
Definition read_from_row (row : node) (r : movie) : Prop :=
  exists td a span td' strong,
    find row "td" (Some "titleColumn") = Some td
    /\ find td "a" None = Some a
    /\ find td "span" None = Some span
    /\ find row "td" (Some "ratingColumn imdbRating") = Some td'
    /\ find td' "strong" None = Some strong
    /\ r = top_record (text a) (strip "()" (text span)) (text strong).

(** The exceptions a file-system fault raises are all [IOError]s. *)
Definition fault_is_IOError (f : fs_fault) : bool :=
  match f with
  | NoFault => true
  | OpenFault ex => isinstance ex IOError
  | WriteFault _ ex => isinstance ex IOError
  end.

(** The part of the world a loop body leaves alone: [w'] has the requests,
    opened paths and files of [w]. *)
Definition same_io (w w' : world) : Prop :=
  requests w' = requests w /\ opened w' = opened w /\ files w' = files w.

(** *** Fixtures *)

Definition txt (s : string) : node := NavigableString s.

(** The one-character text U+D800, a lone surrogate. *)
Definition lone_surrogate : string := chr 237 +:+ chr 160 +:+ chr 128.

(** A top-chart row with the given texts. *)
Definition chart_row (title year rating : string) : node :=
  Tag "tr" []
    [Tag "td" ["titleColumn"]
       [Tag "a" [] [txt title]; Tag "span" ["secondaryInfo"] [txt year]];
     Tag "td" ["ratingColumn"; "imdbRating"]
       [Tag "strong" [] [txt rating]]].

(** The same row without its rating cell. *)
Definition chart_row_no_rating (title year : string) : node :=
  Tag "tr" []
    [Tag "td" ["titleColumn"]
       [Tag "a" [] [txt title]; Tag "span" ["secondaryInfo"] [txt year]]].

(** A row whose anchor, span and strong elements hold no text. *)
Definition blank_row : node :=
  Tag "tr" []
    [Tag "td" ["titleColumn"] [Tag "a" [] []; Tag "span" [] [txt "()"]];
     Tag "td" ["ratingColumn"; "imdbRating"] [Tag "strong" [] []]].

(** A genre search item. *)
Definition lister_item (title rating : string) : node :=
  Tag "div" ["lister-item"; "mode-advanced"]
    [Tag "h3" ["lister-item-header"] [Tag "a" [] [txt title]];
     Tag "div" ["ratings-bar"] [Tag "strong" [] [txt rating]]].

(** A genre search item without its ratings bar. *)
Definition lister_item_no_bar (title : string) : node :=
  Tag "div" ["lister-item"]
    [Tag "h3" ["lister-item-header"] [Tag "a" [] [txt title]]].

Definition document (body : list node) : node := Tag "[document]" [] body.

(** Every URL answers with the same page; the file system has no fault;
    genres are ASCII text. *)
Definition serving (soup : node) : env :=
  mk_env (fun _ => GetContent soup) (fun _ => NoFault) ascii_lower.

(** Every request fails with the same exception. *)
Definition unreachable (ex : exc) : env :=
  mk_env (fun _ => GetRaises ex) (fun _ => NoFault) ascii_lower.

(** No path can be opened for writing. *)
Definition read_only (ex : exc) : env :=
  mk_env (fun _ => GetContent (document [])) (fun _ => OpenFault ex)
         ascii_lower.

End Claims.

(** ** The script at the end of the file *)

Module Script.
Import PyStr Exc Soup Scraper.

(** The [__main__] block: scrape the first 25 rows of the chart, export
    them, scrape the Action genre, print how many were found.  The value is
    the line printed; an exception no method caught ends the script. *)
Definition main (e : env) (w : world) : result string * world :=
  match scrape_top_movies e 25 w with
  | (Raises ex, w1) => (Raises ex, w1)
  | (Returns top_movies, w1) =>
      match export_to_csv e top_movies "top_imdb_movies.csv" w1 with
      | (Raises ex, w2) => (Raises ex, w2)
      | (Returns _, w2) =>
          match scrape_by_genre e "Action" w2 with
          | (Raises ex, w3) => (Raises ex, w3)
          | (Returns action_movies, w3) =>
              (Returns ("Found " +:+ str_len action_movies +:+ " action movies"),
               w3)
          end
      end
  end.

End Script.

(** ** Vocabulary of the further properties *)

Module Observers.
Import PyStr Exc Soup Scraper Claims.

(** The tags below [n] that a [find_all(name, class_=...)] would select, in
    document order, before any limit. *)
Definition candidates (n : node) (name : string) (class_ : option string)
  : list node :=
  List.filter (matches name class_) (descendants n).

(** The log records one run of a loop body on [row] emits. *)
Definition row_log (body : node -> M unit) (row : node) : list (level * string) :=
  log (snd (body row [] empty_world)).

(** The two messages a skipped top-chart row can leave in the log. *)
Definition skipped_no_find : level * string :=
  (ERROR, "Error parsing movie: 'NoneType' object has no attribute 'find'").

Definition skipped_no_text : level * string :=
  (ERROR, "Error parsing movie: 'NoneType' object has no attribute 'text'").

(** The line the csv writer produces for a record: the three columns in
    order, a missing key as the empty text. *)
Definition record_row (r : movie) : string :=
  csv_row (map (fun k => default nil_str (r !! k)) fieldnames).

(** The file a successful export leaves: the header, then one line per
    record. *)
Definition csv_text (movies : list movie) : string :=
  csv_row fieldnames
    +:+ fold_right (fun r acc => record_row r +:+ acc) nil_str movies.

(** The csv writer takes the record: it has no key outside the three
    columns, and the UTF-8 codec can encode its line. *)
Definition exportable (r : movie) : Prop :=
  dom r ⊆ list_to_set fieldnames /\ encodable (record_row r) = true.

#[global] Instance exportable_dec r : Decision (exportable r).
Proof. unfold exportable. apply _. Defined.

(** The exception a file-system fault raises. *)
Definition fault_exc (f : fs_fault) : option exc :=
  match f with
  | NoFault => None
  | OpenFault ex => Some ex
  | WriteFault _ ex => Some ex
  end.

(** The GET either gives a page or raises something the method catches. *)
Definition get_caught (cls : exc_class) (r : response) : bool :=
  match r with
  | GetContent _ => true
  | GetRaises ex => isinstance ex cls
  end.

End Observers.

Import PyStr Exc Soup Scraper Claims Script Observers.

(** ** Strings *)

Section Strip.
Variable chars : string.

Lemma lstrip_split (s : string) :
  exists pre, s = pre +:+ lstrip chars s /\ all_in chars pre = true.
Proof.
  induction s as [|c s [pre [Hs Hpre]]]; simpl.
  - exists nil_str. split; reflexivity.
  - destruct (mem_char c chars) eqn:Hc.
    + exists (String c pre). split.
      * change (String c pre +:+ lstrip chars s)
          with (String c (pre +:+ lstrip chars s)).
        now rewrite <- Hs.
      * unfold all_in in *. simpl. now rewrite Hc.
    + exists nil_str. split; reflexivity.
Qed.

Lemma lstrip_first (s : string) :
  not_in chars (first_char (lstrip chars s)) = true.
Proof.
  induction s as [|c s IH]; simpl; [reflexivity|].
  destruct (mem_char c chars) eqn:Hc; [exact IH|].
  simpl. now rewrite Hc.
Qed.

Lemma rstrip_split (s : string) :
  exists post, s = rstrip chars s +:+ post /\ all_in chars post = true.
Proof.
  induction s as [|c s [post [Hs Hpost]]]; simpl.
  - exists nil_str. split; reflexivity.
  - destruct (rstrip chars s) as [|k ks] eqn:Hr.
    + destruct (mem_char c chars) eqn:Hc.
      * exists (String c post). split.
        -- change (String c s = String c post). f_equal. exact Hs.
        -- unfold all_in in *. simpl. now rewrite Hc.
      * exists post. split; [|exact Hpost].
        change (String c nil_str +:+ post) with (String c (nil_str +:+ post)).
        now rewrite <- Hs.
    + exists post. split; [|exact Hpost].
      change (String c (String k ks) +:+ post)
        with (String c (String k ks +:+ post)).
      now rewrite <- Hs.
Qed.

Lemma rstrip_last (s : string) :
  not_in chars (last_char (rstrip chars s)) = true.
Proof.
  induction s as [|c s IH]; simpl; [reflexivity|].
  destruct (rstrip chars s) as [|k ks] eqn:Hr.
  - destruct (mem_char c chars) eqn:Hc; simpl; [reflexivity|].
    now rewrite Hc.
  - exact IH.
Qed.

Lemma rstrip_first (s : string) :
  not_in chars (first_char s) = true ->
  not_in chars (first_char (rstrip chars s)) = true.
Proof.
  destruct s as [|c s]; simpl; [reflexivity|].
  intros Hc. destruct (rstrip chars s); [|exact Hc].
  destruct (mem_char c chars) eqn:E; [reflexivity|].
  simpl. now rewrite E.
Qed.

(** [strip] removes a run of [chars] at each end and stops at the first
    character outside the set. *)
Lemma strip_spec (s : string) :
  exists pre post,
    s = pre +:+ strip chars s +:+ post
    /\ all_in chars pre = true /\ all_in chars post = true
    /\ not_in chars (first_char (strip chars s)) = true
    /\ not_in chars (last_char (strip chars s)) = true.
Proof.
  unfold strip.
  destruct (lstrip_split s) as [pre [Hs Hpre]].
  destruct (rstrip_split (lstrip chars s)) as [post [Hl Hpost]].
  exists pre, post. repeat split; auto.
  - now rewrite <- Hl.
  - apply rstrip_first, lstrip_first.
  - apply rstrip_last.
Qed.

End Strip.

(** ** The document queries *)

Lemma collect_bounded name class_ limit generator results :
  0 < limit -> Z.of_nat (length results) < limit ->
  Z.of_nat (length (collect name class_ limit generator results)) <= limit.
Proof.
  intros Hpos. revert results.
  induction generator as [|i rest IH]; intros results Hlt; simpl.
  - lia.
  - destruct (matches name class_ i); [|now apply IH].
    rewrite length_app. simpl.
    destruct (limit =? 0) eqn:E0; [apply Z.eqb_eq in E0; lia|]. simpl.
    destruct (limit <=? Z.of_nat (length results + 1)) eqn:E.
    + rewrite length_app. simpl. apply Z.leb_le in E. lia.
    + apply IH. rewrite length_app. simpl. apply Z.leb_gt in E. lia.
Qed.

Lemma find_all_bounded n name class_ limit :
  0 < limit -> Z.of_nat (length (find_all n name class_ limit)) <= limit.
Proof. intros H. apply collect_bounded; simpl; lia. Qed.

(** ** Running the loop bodies *)

Lemma none_is_Exception attr : isinstance (none_has_no attr) Exception = true.
Proof. reflexivity. Qed.

Lemma same_io_refl w : same_io w w.
Proof. repeat split. Qed.

Lemma same_io_trans w1 w2 w3 : same_io w1 w2 -> same_io w2 w3 -> same_io w1 w3.
Proof. unfold same_io. intros (?&?&?) (?&?&?). repeat split; congruence. Qed.

Ltac run_body :=
  unfold try_except, bind, py_find, py_text, ret, raise, append, logging;
  repeat (rewrite none_is_Exception); simpl.

Ltac split_finds :=
  repeat match goal with
         | |- context [match find ?n ?a ?b with _ => _ end] =>
             destruct (find n a b) eqn:?; simpl
         end;
  rewrite ?none_is_Exception; simpl; rewrite ?app_nil_r.

Lemma top_row_run row ms w :
  exists w', top_row row ms w = (Returns tt, ms ++ row_yield top_row row, w')
             /\ same_io w w'.
Proof.
  unfold row_yield, top_row, top_title, top_year, top_rating.
  run_body. split_finds;
    (eexists; split; [reflexivity | repeat split]).
Qed.

Lemma genre_item_run genre item ms w :
  exists w', genre_item genre item ms w
             = (Returns tt, ms ++ row_yield (genre_item genre) item, w')
             /\ same_io w w'.
Proof.
  unfold row_yield, genre_item.
  run_body. split_finds;
    (eexists; split; [reflexivity | repeat split]).
Qed.

(** A loop whose body appends what it yields and leaves requests and files
    alone does the same as a whole. *)
Lemma for_each_run (body : node -> M unit) :
  (forall row ms w,
      exists w', body row ms w = (Returns tt, ms ++ row_yield body row, w')
                 /\ same_io w w') ->
  forall rows ms w,
    exists w', for_each rows body ms w
               = (Returns tt, ms ++ flat_map (row_yield body) rows, w')
               /\ same_io w w'.
Proof.
  intros Hbody rows. induction rows as [|row rows IH]; intros ms w; simpl.
  - exists w. rewrite app_nil_r. split; [reflexivity | apply same_io_refl].
  - unfold bind. destruct (Hbody row ms w) as [w1 [-> Hw1]].
    destruct (IH (ms ++ row_yield body row) w1) as [w2 [-> Hw2]].
    exists w2. rewrite <- app_assoc. split; [reflexivity|].
    eapply same_io_trans; eassumption.
Qed.

(** What a row can yield: nothing, or one record of its variant. *)
Lemma top_yield_cases row :
  row_yield top_row row = []
  \/ exists td a span td' strong,
      find row "td" (Some "titleColumn") = Some td
      /\ find td "a" None = Some a
      /\ find td "span" None = Some span
      /\ find row "td" (Some "ratingColumn imdbRating") = Some td'
      /\ find td' "strong" None = Some strong
      /\ row_yield top_row row
         = [top_record (text a) (strip "()" (text span)) (text strong)].
Proof.
  unfold row_yield, top_row, top_title, top_year, top_rating.
  run_body. split_finds; try (left; reflexivity).
  right. do 5 eexists. repeat split; first [reflexivity | eassumption].
Qed.

Lemma genre_yield_cases genre item :
  row_yield (genre_item genre) item = []
  \/ exists h3 a bar strong,
      find item "h3" (Some "lister-item-header") = Some h3
      /\ find h3 "a" None = Some a
      /\ find item "div" (Some "ratings-bar") = Some bar
      /\ find bar "strong" None = Some strong
      /\ row_yield (genre_item genre) item
         = [genre_record (text a) genre (text strong)].
Proof.
  unfold row_yield, genre_item.
  run_body. split_finds; try (left; reflexivity).
  right. do 4 eexists. repeat split; first [reflexivity | eassumption].
Qed.

(** ** The two scrape operations on a fetched page *)

Lemma yield_length (body : node -> M unit) rows :
  (forall row, (length (row_yield body row) <= 1)%nat) ->
  (length (flat_map (row_yield body) rows) <= length rows)%nat.
Proof.
  intros H. induction rows as [|row rows IH]; simpl; [lia|].
  rewrite length_app. specialize (H row). lia.
Qed.

Lemma top_yield_short row : (length (row_yield top_row row) <= 1)%nat.
Proof.
  destruct (top_yield_cases row) as [-> | (?&?&?&?&?&_&_&_&_&_&->)];
    simpl; lia.
Qed.

Lemma genre_yield_short genre item :
  (length (row_yield (genre_item genre) item) <= 1)%nat.
Proof.
  destruct (genre_yield_cases genre item) as [-> | (?&?&?&?&_&_&_&_&->)];
    simpl; lia.
Qed.

Lemma scrape_top_movies_run e limit soup w :
  http_get e top_url = GetContent soup ->
  exists w',
    scrape_top_movies e limit w
    = (Returns (flat_map (row_yield top_row) (find_all soup "tr" None limit)), w')
    /\ same_io (add_request top_url w) w'.
Proof.
  intros Hget.
  unfold scrape_top_movies, return_movies, scrape_top_movies_body,
    try_except, bind, get_soup.
  rewrite Hget.
  destruct (for_each_run top_row top_row_run
              (find_all soup "tr" None limit) [] (add_request top_url w))
    as [w1 [-> Hio]].
  unfold logging. simpl.
  eexists. split; [reflexivity|].
  destruct Hio as (?&?&?). repeat split; assumption.
Qed.

Lemma scrape_by_genre_run e genre soup w :
  http_get e (genre_url e genre) = GetContent soup ->
  exists w',
    scrape_by_genre e genre w
    = (Returns (flat_map (row_yield (genre_item genre))
                         (find_all soup "div" (Some "lister-item") 50)), w')
    /\ same_io (add_request (genre_url e genre) w) w'.
Proof.
  intros Hget.
  unfold scrape_by_genre, return_movies, scrape_by_genre_body,
    try_except, bind, get_soup.
  rewrite Hget.
  destruct (for_each_run (genre_item genre) (genre_item_run genre)
              (find_all soup "div" (Some "lister-item") 50) []
              (add_request (genre_url e genre) w))
    as [w1 [-> Hio]].
  unfold logging. simpl.
  eexists. split; [reflexivity|].
  destruct Hio as (?&?&?). repeat split; assumption.
Qed.

Lemma scrape_top_movies_raises e limit ex w :
  http_get e top_url = GetRaises ex ->
  scrape_top_movies e limit w
  = if isinstance ex RequestException
    then (Returns [],
          add_log ERROR ("Request error: " +:+ exc_str ex) (add_request top_url w))
    else (Raises ex, add_request top_url w).
Proof.
  intros Hget.
  unfold scrape_top_movies, return_movies, scrape_top_movies_body,
    try_except, bind, get_soup.
  rewrite Hget. destruct (isinstance ex RequestException); reflexivity.
Qed.

Lemma scrape_by_genre_raises e genre ex w :
  http_get e (genre_url e genre) = GetRaises ex ->
  scrape_by_genre e genre w
  = if isinstance ex Exception
    then (Returns [],
          add_log ERROR ("Error scraping genre: " +:+ exc_str ex)
                  (add_request (genre_url e genre) w))
    else (Raises ex, add_request (genre_url e genre) w).
Proof.
  intros Hget.
  unfold scrape_by_genre, return_movies, scrape_by_genre_body,
    try_except, bind, get_soup.
  rewrite Hget. destruct (isinstance ex Exception); reflexivity.
Qed.

Lemma top_yield_records rows :
  Forall (fun r : movie => exists title year rating, r = top_record title year rating)
         (flat_map (row_yield top_row) rows).
Proof.
  induction rows as [|row rows IH]; simpl; [constructor|].
  apply Forall_app. split; [|exact IH].
  destruct (top_yield_cases row) as [-> | (?&?&?&?&?&_&_&_&_&_&->)].
  - constructor.
  - repeat constructor. eauto.
Qed.

Lemma genre_yield_records genre items :
  Forall (fun r : movie => exists title rating, r = genre_record title genre rating)
         (flat_map (row_yield (genre_item genre)) items).
Proof.
  induction items as [|item items IH]; simpl; [constructor|].
  apply Forall_app. split; [|exact IH].
  destruct (genre_yield_cases genre item) as [-> | (?&?&?&?&_&_&_&_&->)].
  - constructor.
  - repeat constructor. eauto.
Qed.

(** ** C1: the top chart *)

(** C1, as claimed, fails.  With limit 1, a page whose only row has an
    empty anchor, an empty strong element and the span text [()] yields a
    record whose three values are all the empty string, so it is not true
    that every record of the returned list has non-empty title, year and
    rating values. *)
Lemma scrape_top_movies_blank_fields :
  http_get (serving (document [blank_row])) top_url
  = GetContent (document [blank_row])
  /\ ~ (exists ms w',
         scrape_top_movies (serving (document [blank_row])) 1 empty_world
         = (Returns ms, w')
         /\ Z.of_nat (length ms) <= 1
         /\ Forall (fun r => filled r "title" /\ filled r "year"
                             /\ filled r "rating") ms).
Proof.
  split; [reflexivity|].
  intros (ms & w' & Hrun & _ & Hall).
  vm_compute in Hrun. injection Hrun as <- _.
  apply Forall_inv in Hall. destruct Hall as [(v & Hv & Hne) _].
  vm_compute in Hv. injection Hv as <-. now apply Hne.
Qed.

(** A limit of 0 is falsy for [find_all], which then returns every row:
    two rows give two records. *)
Example scrape_top_movies_limit_zero :
  returned (scrape_top_movies
              (serving (document [chart_row "Heat" "(1995)" "8.3";
                                  chart_row "Ran" "(1985)" "8.2"]))
              0 empty_world)
  = [top_record "Heat" "1995" "8.3"; top_record "Ran" "1985" "8.2"].
Proof. vm_compute. reflexivity. Qed.

Lemma top_yield_from_rows rows :
  Forall (fun r : movie => exists row, row ∈ rows /\ read_from_row row r)
         (flat_map (row_yield top_row) rows).
Proof.
  induction rows as [|row rows IH]; simpl; [constructor|].
  apply Forall_app. split.
  - destruct (top_yield_cases row)
      as [-> | (td & a & span & td' & strong & ? & ? & ? & ? & ? & ->)].
    + constructor.
    + constructor; [|constructor].
      exists row. split; [left|]. exists td, a, span, td', strong. auto 10.
  - eapply Forall_impl; [exact IH|].
    intros r (row' & Hin & Hread). exists row'. split; [now right | exact Hread].
Qed.

(** C1, amended: for every limit N >= 1 and every fetched page,
    scrape_top_movies(limit=N) returns a list of at most N records, and
    every record holds a title, a year and a rating read from one of the
    rows find_all gave: the text of the row's anchor, the text of its span
    without the parentheses at either end, and the text of its strong
    element.  The values are what the page holds and may be empty. *)
Theorem scrape_top_movies_capped e limit soup w :
  0 < limit ->
  http_get e top_url = GetContent soup ->
  exists ms w',
    scrape_top_movies e limit w = (Returns ms, w')
    /\ Z.of_nat (length ms) <= limit
    /\ Forall (fun r : movie =>
                 exists row,
                   row ∈ find_all soup "tr" None limit /\ read_from_row row r)
              ms.
Proof.
  intros Hpos Hget.
  destruct (scrape_top_movies_run e limit soup w Hget) as [w' [Hrun _]].
  eexists _, w'. split; [exact Hrun|]. split.
  - pose proof (yield_length top_row (find_all soup "tr" None limit)
                  top_yield_short).
    pose proof (find_all_bounded soup "tr" None limit Hpos). lia.
  - apply top_yield_from_rows.
Qed.

(** The fixture of the specification: 120 rows on the page, limit 25. *)
Lemma scrape_top_movies_capped_witness :
  exists ms w',
    scrape_top_movies
      (serving (document (repeat (chart_row "Heat" "(1995)" "8.3") 120)))
      25 empty_world = (Returns ms, w')
    /\ Z.of_nat (length ms) <= 25
    /\ Forall (fun r : movie =>
                 exists row,
                   row ∈ find_all
                           (document (repeat (chart_row "Heat" "(1995)" "8.3") 120))
                           "tr" None 25
                   /\ read_from_row row r)
              ms.
Proof.
  apply (scrape_top_movies_capped
           (serving (document (repeat (chart_row "Heat" "(1995)" "8.3") 120)))
           25 (document (repeat (chart_row "Heat" "(1995)" "8.3") 120))
           empty_world).
  - lia.
  - reflexivity.
Defined.

(** ** C2: the genre search *)

Lemma genre_record_genre title genre rating :
  genre_record title genre rating !! "genre" = Some genre.
Proof.
  unfold genre_record.
  rewrite lookup_insert_ne by discriminate. apply lookup_insert_eq.
Qed.

(** C2: for every genre string and every fetched page, scrape_by_genre
    returns a list of at most 50 records, the genre field of each is the
    input string as the caller gave it, and the one request made went to the
    URL built from the genre as [str.lower] returns it. *)
Theorem scrape_by_genre_capped e genre soup w :
  http_get e (genre_url e genre) = GetContent soup ->
  exists ms w',
    scrape_by_genre e genre w = (Returns ms, w')
    /\ (length ms <= 50)%nat
    /\ Forall (fun r : movie => r !! "genre" = Some genre) ms
    /\ requests w'
       = requests w ++ ["https://www.imdb.com/search/title/?genres="
                          +:+ str_lower e genre
                          +:+ "&sort=user_rating,-popularity"].
Proof.
  intros Hget.
  destruct (scrape_by_genre_run e genre soup w Hget) as [w' [Hrun Hio]].
  eexists _, w'. split; [exact Hrun|]. split; [|split].
  - pose proof (yield_length (genre_item genre)
                  (find_all soup "div" (Some "lister-item") 50)
                  (genre_yield_short genre)).
    pose proof (find_all_bounded soup "div" (Some "lister-item") 50). lia.
  - eapply Forall_impl; [apply genre_yield_records|].
    intros r (title & rating & ->). apply genre_record_genre.
  - destruct Hio as (-> & _ & _). reflexivity.
Qed.

Lemma scrape_by_genre_capped_witness :
  exists ms w',
    scrape_by_genre (serving (document [lister_item "Heat" "8.3"]))
                    "Crime" empty_world = (Returns ms, w')
    /\ (length ms <= 50)%nat
    /\ Forall (fun r : movie => r !! "genre" = Some "Crime") ms
    /\ requests w'
       = requests empty_world
           ++ ["https://www.imdb.com/search/title/?genres="
                 +:+ str_lower (serving (document [lister_item "Heat" "8.3"]))
                               "Crime"
                 +:+ "&sort=user_rating,-popularity"].
Proof.
  apply (scrape_by_genre_capped
           (serving (document [lister_item "Heat" "8.3"])) "Crime"
           (document [lister_item "Heat" "8.3"]) empty_world).
  reflexivity.
Defined.

(** ** C3: a row with a failed lookup *)

Lemma failed_lookup_yields_nothing row :
  (lookup_fails (top_title row) || lookup_fails (top_year row)
   || lookup_fails (top_rating row))%bool = true ->
  row_yield top_row row = [].
Proof.
  unfold lookup_fails, row_yield, top_row, top_title, top_year, top_rating.
  run_body. split_finds; intros H; first [reflexivity | discriminate H].
Qed.

(** C3: when one of the three field lookups of a row fails, the loop body
    returns with the list as it was (nothing partial is appended), and the
    loop over rows around it collects what the earlier rows gave followed by
    what the later rows give. *)
Theorem top_row_failed_lookup_skipped row :
  (lookup_fails (top_title row) || lookup_fails (top_year row)
   || lookup_fails (top_rating row))%bool = true ->
  (forall ms w, exists w', top_row row ms w = (Returns tt, ms, w'))
  /\ (forall pre post ms w,
        exists w',
          for_each (pre ++ row :: post) top_row ms w
          = (Returns tt,
             ms ++ flat_map (row_yield top_row) pre
                ++ flat_map (row_yield top_row) post, w')).
Proof.
  intros Hfail. apply failed_lookup_yields_nothing in Hfail. split.
  - intros ms w. destruct (top_row_run row ms w) as [w' [Hrun _]].
    rewrite Hfail, app_nil_r in Hrun. eauto.
  - intros pre post ms w.
    destruct (for_each_run top_row top_row_run (pre ++ row :: post) ms w)
      as [w' [Hrun _]].
    rewrite flat_map_app in Hrun. simpl in Hrun. rewrite Hfail in Hrun.
    eauto.
Qed.

(** The fixture of the specification: a row lacking its rating element,
    between two complete rows. *)
Lemma top_row_failed_lookup_skipped_witness :
  (forall ms w,
      exists w', top_row (chart_row_no_rating "Ran" "(1985)") ms w
                 = (Returns tt, ms, w'))
  /\ (forall pre post ms w,
        exists w',
          for_each (pre ++ chart_row_no_rating "Ran" "(1985)" :: post)
                   top_row ms w
          = (Returns tt,
             ms ++ flat_map (row_yield top_row) pre
                ++ flat_map (row_yield top_row) post, w')).
Proof.
  apply (top_row_failed_lookup_skipped (chart_row_no_rating "Ran" "(1985)")).
  reflexivity.
Defined.

(** ** C5: transport errors *)

(** C5: when the GET raises a transport error (a [RequestException], such
    as a connection error or a timeout), each scrape operation returns the
    empty list, having issued that one request and logged one error. *)
Theorem transport_error_gives_empty_list e ex w :
  isinstance ex RequestException = true ->
  (forall limit,
      http_get e top_url = GetRaises ex ->
      scrape_top_movies e limit w
      = (Returns [],
         add_log ERROR ("Request error: " +:+ exc_str ex)
                 (add_request top_url w)))
  /\ (forall genre,
        http_get e (genre_url e genre) = GetRaises ex ->
        scrape_by_genre e genre w
        = (Returns [],
           add_log ERROR ("Error scraping genre: " +:+ exc_str ex)
                   (add_request (genre_url e genre) w))).
Proof.
  intros Hreq. split.
  - intros limit Hget.
    rewrite (scrape_top_movies_raises e limit ex w Hget), Hreq. reflexivity.
  - intros genre Hget.
    rewrite (scrape_by_genre_raises e genre ex w Hget).
    assert (isinstance ex Exception = true) as ->; [|reflexivity].
    unfold isinstance in *. destruct (exc_type ex); first [reflexivity | discriminate Hreq].
Qed.

Lemma transport_error_gives_empty_list_witness :
  scrape_top_movies (unreachable (mk_exc ConnectionError "refused")) 100
                    empty_world
  = (Returns [],
     add_log ERROR "Request error: refused" (add_request top_url empty_world))
  /\ scrape_by_genre (unreachable (mk_exc Timeout "timed out")) "Action"
                     empty_world
     = (Returns [],
        add_log ERROR "Error scraping genre: timed out"
                (add_request
                   (genre_url (unreachable (mk_exc Timeout "timed out")) "Action")
                   empty_world)).
Proof.
  split.
  - apply (proj1 (transport_error_gives_empty_list
                    (unreachable (mk_exc ConnectionError "refused"))
                    (mk_exc ConnectionError "refused") empty_world
                    eq_refl) 100).
    reflexivity.
  - apply (proj2 (transport_error_gives_empty_list
                    (unreachable (mk_exc Timeout "timed out"))
                    (mk_exc Timeout "timed out") empty_world
                    eq_refl) "Action").
    reflexivity.
Defined.

(** ** C8: the containers of a genre item *)

(** C8: the loop body first looks up the title container and the rating
    container of the item, before anything else; when either is absent it
    returns after these two lookups alone, with the list as it was and
    nothing logged. *)
Theorem genre_item_checks_containers_first genre item ms w :
  (exists r ms' w' later,
      genre_item genre item ms w = (r, ms', w')
      /\ queries w'
         = queries w
             ++ [Find item "h3" (Some "lister-item-header");
                 Find item "div" (Some "ratings-bar")]
             ++ later)
  /\ (find item "h3" (Some "lister-item-header") = None
      \/ find item "div" (Some "ratings-bar") = None ->
      genre_item genre item ms w
      = (Returns tt, ms,
         add_query (Find item "div" (Some "ratings-bar"))
           (add_query (Find item "h3" (Some "lister-item-header")) w))).
Proof.
  unfold genre_item. run_body. split.
  - split_finds; do 4 eexists; (split; [reflexivity|]); simpl;
      rewrite <- ?app_assoc; reflexivity.
  - intros [H | H]; rewrite H; simpl; [reflexivity|].
    destruct (find item "h3" (Some "lister-item-header")); reflexivity.
Qed.

Lemma genre_item_checks_containers_first_witness :
  genre_item "Crime" (lister_item_no_bar "Heat") [] empty_world
  = (Returns tt, [],
     add_query (Find (lister_item_no_bar "Heat") "div" (Some "ratings-bar"))
       (add_query (Find (lister_item_no_bar "Heat") "h3"
                        (Some "lister-item-header")) empty_world)).
Proof.
  apply (proj2 (genre_item_checks_containers_first
                  "Crime" (lister_item_no_bar "Heat") [] empty_world)).
  right. reflexivity.
Defined.

(** ** C9 and C4: the export *)

(** C9: with an empty batch, export_to_csv only logs a warning: it returns
    with no path opened and the files as they were, whatever the filename
    and whatever is at that path. *)
Theorem export_to_csv_empty_batch e filename w :
  export_to_csv e [] filename w
  = (Returns tt, add_log WARNING "No movies to export" w)
  /\ opened (snd (export_to_csv e [] filename w)) = opened w
  /\ files (snd (export_to_csv e [] filename w)) = files w.
Proof. repeat split. Qed.

(** C4, as claimed, fails.  The batch scrape_by_genre returns for a page
    with one item holds a record with the key [genre]; on it the csv writer
    raises ValueError, which the [except IOError] clause does not catch, so
    export_to_csv raises to its caller. *)
Lemma export_to_csv_genre_batch_raises :
  returned (scrape_by_genre (serving (document [lister_item "Heat" "8.3"]))
                            "Crime" empty_world)
  = [genre_record "Heat" "Crime" "8.3"]
  /\ fst (export_to_csv (serving (document [lister_item "Heat" "8.3"]))
                        [genre_record "Heat" "Crime" "8.3"] "genre.csv"
                        empty_world)
     = Raises (mk_exc ValueError
                 "dict contains fields not in fieldnames: 'genre'")
  /\ ~ (exists w',
         export_to_csv (serving (document [lister_item "Heat" "8.3"]))
                       [genre_record "Heat" "Crime" "8.3"] "genre.csv"
                       empty_world
         = (Returns tt, w')).
Proof.
  split; [vm_compute; reflexivity|]. split; [vm_compute; reflexivity|].
  intros [w' H]. vm_compute in H. discriminate H.
Qed.

Lemma filter_none {A} (P : A -> Prop) `{forall x, Decision (P x)} (l : list A) :
  Forall (fun x => ~ P x) l -> filter P l = [].
Proof.
  induction 1 as [|x l Hx _ IH]; [reflexivity|].
  rewrite filter_cons. destruct (decide (P x)); [contradiction|exact IH].
Qed.

Lemma filter_none_inv {A} (P : A -> Prop) `{forall x, Decision (P x)} (l : list A) :
  filter P l = [] -> Forall (fun x => ~ P x) l.
Proof.
  induction l as [|x l IH]; [constructor|].
  rewrite filter_cons. destruct (decide (P x)); [discriminate|].
  intros Hl. constructor; auto.
Qed.

Lemma wrong_fields_none (r : movie) :
  dom r ⊆ list_to_set fieldnames -> wrong_fields r = [].
Proof.
  intros Hsub. unfold wrong_fields. apply filter_none.
  apply Forall_forall. intros k Hk Hnot. apply Hnot.
  apply elem_of_elements, Hsub in Hk.
  now apply elem_of_list_to_set in Hk.
Qed.

Lemma wrong_fields_some (r : movie) :
  ~ dom r ⊆ list_to_set fieldnames -> wrong_fields r <> [].
Proof.
  intros Hnot Hnone. apply Hnot. intros k Hk.
  apply filter_none_inv in Hnone.
  apply elem_of_elements in Hk.
  rewrite Forall_forall in Hnone. specialize (Hnone k Hk).
  apply elem_of_list_to_set.
  destruct (decide (k ∈ fieldnames)) as [Hin | Hout]; [exact Hin|].
  contradiction.
Qed.

Lemma string_app_assoc (a b c : string) : (a +:+ b) +:+ c = a +:+ (b +:+ c).
Proof.
  induction a as [|x a IH]; [reflexivity|].
  change (String x ((a +:+ b) +:+ c) = String x (a +:+ (b +:+ c))).
  now rewrite IH.
Qed.

Lemma string_app_nil_r (a : string) : a +:+ nil_str = a.
Proof.
  induction a as [|x a IH]; [reflexivity|].
  change (String x (a +:+ nil_str) = String x a). now rewrite IH.
Qed.

(** A record the writer takes adds its line. *)
Lemma writerows_takes r rest written :
  exportable r ->
  writerows (r :: rest) written = writerows rest (written +:+ record_row r).
Proof.
  intros [Hkeys Henc]. simpl. unfold dict_to_list.
  rewrite (wrong_fields_none r Hkeys). unfold write_error.
  unfold record_row in Henc. rewrite Henc. reflexivity.
Qed.

(** A record the writer refuses raises a ValueError, for its keys, or its
    subclass UnicodeEncodeError, for its text; nothing of it is written. *)
Lemma writerows_refuses r rest written :
  ~ exportable r ->
  exists ex,
    writerows (r :: rest) written = (written, Some ex)
    /\ isinstance ex ValueError = true /\ isinstance ex IOError = false.
Proof.
  intros Hnot. simpl. unfold dict_to_list.
  destruct (decide (dom r ⊆ list_to_set fieldnames)) as [Hkeys | Hkeys].
  - rewrite (wrong_fields_none r Hkeys). unfold write_error.
    destruct (encodable (csv_row (map (fun k => default nil_str (r !! k))
                                      fieldnames))) eqn:Henc.
    + exfalso. apply Hnot. split; assumption.
    + eexists. split; [reflexivity|]. split; reflexivity.
  - destruct (wrong_fields r) as [|k ks] eqn:Hwrong.
    + exfalso. now apply (wrong_fields_some r Hkeys).
    + eexists. split; [reflexivity|]. split; reflexivity.
Qed.

Lemma writerows_content movies written :
  Forall exportable movies ->
  writerows movies written
  = (written +:+ fold_right (fun r acc => record_row r +:+ acc) nil_str movies,
     None).
Proof.
  intros Hall. revert written.
  induction Hall as [|r movies Hr _ IH]; intros written.
  - simpl. now rewrite string_app_nil_r.
  - rewrite (writerows_takes r movies written Hr), IH.
    simpl. now rewrite string_app_assoc.
Qed.

Lemma writerows_stops good bad rest written :
  Forall exportable good ->
  ~ exportable bad ->
  exists ex,
    writerows (good ++ bad :: rest) written
    = (written +:+ fold_right (fun r acc => record_row r +:+ acc) nil_str good,
       Some ex)
    /\ isinstance ex ValueError = true /\ isinstance ex IOError = false.
Proof.
  intros Hall Hbad. revert written.
  induction Hall as [|r good Hr _ IH]; intros written.
  - change ([] ++ bad :: rest) with (bad :: rest).
    destruct (writerows_refuses bad rest written Hbad) as (ex & -> & Hex).
    exists ex. simpl. now rewrite string_app_nil_r.
  - change ((r :: good) ++ bad :: rest) with (r :: (good ++ bad :: rest)).
    rewrite (writerows_takes r _ written Hr).
    destruct (IH (written +:+ record_row r)) as (ex & -> & Hex).
    exists ex. simpl. now rewrite string_app_assoc.
Qed.

(** A batch with a refused record splits at the first one. *)
Lemma first_refused movies :
  Exists (fun r => ~ exportable r) movies ->
  exists good bad rest,
    movies = good ++ bad :: rest /\ Forall exportable good /\ ~ exportable bad.
Proof.
  induction movies as [|r movies IH]; intros Hex.
  - inversion Hex.
  - destruct (decide (exportable r)) as [Hr | Hr].
    + assert (Exists (fun r => ~ exportable r) movies) as Htail.
      { inversion Hex; subst; [contradiction | assumption]. }
      destruct (IH Htail) as (good & bad & rest & -> & Hgood & Hbad).
      exists (r :: good), bad, rest. repeat split; auto.
    + exists [], r, movies. repeat split; auto.
Qed.

(** C4, amended: export_to_csv returns normally, after logging one record,
    in three cases: the batch is empty (the warning); opening or flushing
    the file raises an IOError (the error "File write error", whatever the
    records); the file can be written and every record has no key other
    than title, year and rating and a line the UTF-8 codec can encode (the
    count of records exported).  In the two cases left it raises to its
    caller with nothing logged: with a file that can be written, the
    ValueError of the first record that has another key or a line with a
    lone surrogate; and whatever opening or flushing the file raises that
    is not an IOError. *)
Theorem export_to_csv_returns e movies filename w :
  (movies = [] ->
   export_to_csv e movies filename w
   = (Returns tt, add_log WARNING "No movies to export" w))
  /\ (movies <> [] ->
      forall ex,
        fault_exc (fs_fault_at e filename) = Some ex ->
        isinstance ex IOError = true ->
        exists w1,
          export_to_csv e movies filename w
          = (Returns tt, add_log ERROR ("File write error: " +:+ exc_str ex) w1)
          /\ log w1 = log w)
  /\ (movies <> [] ->
      fs_fault_at e filename = NoFault ->
      Forall exportable movies ->
      exists w1,
        export_to_csv e movies filename w
        = (Returns tt,
           add_log INFO ("Exported " +:+ pretty (length movies)
                           +:+ " movies to " +:+ filename) w1)
        /\ log w1 = log w)
  /\ (movies <> [] ->
      fs_fault_at e filename = NoFault ->
      Exists (fun r => ~ exportable r) movies ->
      exists ex w',
        export_to_csv e movies filename w = (Raises ex, w')
        /\ isinstance ex ValueError = true
        /\ log w' = log w)
  /\ (movies <> [] ->
      forall ex,
        fault_exc (fs_fault_at e filename) = Some ex ->
        isinstance ex IOError = false ->
        exists w',
          export_to_csv e movies filename w = (Raises ex, w')
          /\ log w' = log w).
Proof.
  destruct movies as [|m movies].
  { split; [reflexivity|]. repeat split; intros Hne; congruence. }
  split; [discriminate|].
  unfold export_to_csv, export_to_csv_body, try_except, bind, with_open_w,
    logging, with_body, str_len.
  split; [|split; [|split]].
  - intros _ ex Hfault Hio.
    destruct (fs_fault_at e filename) as [|ex'|kept ex']; simpl in Hfault;
      [discriminate| |]; injection Hfault as ->; rewrite Hio; simpl;
      eexists; split; reflexivity.
  - intros _ -> Hall.
    rewrite (writerows_content (m :: movies) _ Hall). simpl.
    eexists; split; reflexivity.
  - intros _ -> Hex.
    destruct (first_refused (m :: movies) Hex)
      as (good & bad & rest & -> & Hgood & Hbad).
    destruct (writerows_stops good bad rest (csv_row fieldnames) Hgood Hbad)
      as (ex & -> & Hval & Hio).
    simpl. rewrite Hio. exists ex. eexists. repeat split. exact Hval.
  - intros _ ex Hfault Hio.
    destruct (fs_fault_at e filename) as [|ex'|kept ex']; simpl in Hfault;
      [discriminate| |]; injection Hfault as ->; rewrite Hio; simpl;
      eexists; split; reflexivity.
Qed.

(** Two top-chart records on a path that cannot be opened; the same two on
    a path that can; and a record with a lone surrogate in its title. *)
Lemma export_to_csv_returns_witness :
  (exists w1,
      export_to_csv (read_only (mk_exc OSError "Permission denied"))
                    [top_record "Heat" "1995" "8.3"; top_record "Ran" "1985" "8.2"]
                    "top.csv" empty_world
      = (Returns tt,
         add_log ERROR ("File write error: "
                          +:+ exc_str (mk_exc OSError "Permission denied")) w1)
      /\ log w1 = log empty_world)
  /\ (exists w1,
        export_to_csv (serving (document []))
                      [top_record "Heat" "1995" "8.3"; top_record "Ran" "1985" "8.2"]
                      "top.csv" empty_world
        = (Returns tt,
           add_log INFO ("Exported " +:+ pretty 2%nat +:+ " movies to "
                           +:+ "top.csv") w1)
        /\ log w1 = log empty_world)
  /\ (exists ex w',
        export_to_csv (serving (document []))
                      [top_record lone_surrogate "1995" "8.3"]
                      "top.csv" empty_world
        = (Raises ex, w')
        /\ isinstance ex ValueError = true
        /\ log w' = log empty_world).
Proof.
  split; [|split].
  - apply (proj1 (proj2 (export_to_csv_returns
                           (read_only (mk_exc OSError "Permission denied"))
                           [top_record "Heat" "1995" "8.3";
                            top_record "Ran" "1985" "8.2"]
                           "top.csv" empty_world))).
    + discriminate.
    + reflexivity.
    + reflexivity.
  - apply (proj1 (proj2 (proj2 (export_to_csv_returns
                                  (serving (document []))
                                  [top_record "Heat" "1995" "8.3";
                                   top_record "Ran" "1985" "8.2"]
                                  "top.csv" empty_world)))).
    + discriminate.
    + reflexivity.
    + apply Forall_cons_2; [|apply Forall_cons_2; [|apply Forall_nil_2]];
        compute_done.
  - apply (proj1 (proj2 (proj2 (proj2 (export_to_csv_returns
                                         (serving (document []))
                                         [top_record lone_surrogate "1995" "8.3"]
                                         "top.csv" empty_world))))).
    + discriminate.
    + reflexivity.
    + apply Exists_cons_hd. compute_done.
Defined.

(** What the code does on that last batch: the UnicodeEncodeError of the
    codec, and a file that holds the header alone. *)
Example export_to_csv_lone_surrogate :
  export_to_csv (serving (document []))
                [top_record lone_surrogate "1995" "8.3"] "top.csv" empty_world
  = (Raises (mk_exc UnicodeEncodeError
               "'utf-8' codec can't encode character '\ud800' in position 0: surrogates not allowed"),
     set_file "top.csv" (csv_text []) (add_opened "top.csv" empty_world)).
Proof. vm_compute. reflexivity. Qed.

(** The export fixture of the specification: two records give a file of
    three lines, header first, fields in the declared column order. *)
Example export_to_csv_two_records :
  files (snd (export_to_csv (serving (document []))
                [top_record "Heat" "1995" "8.3"; top_record "Ran" "1985" "8.2"]
                "top.csv" empty_world)) !! "top.csv"
  = Some ("title,year,rating" +:+ lineterminator
            +:+ "Heat,1995,8.3" +:+ lineterminator
            +:+ "Ran,1985,8.2" +:+ lineterminator).
Proof. vm_compute. reflexivity. Qed.

(** ** C6 and C7: the stored texts *)

Lemma top_record_fields title year rating :
  top_record title year rating !! "title" = Some title
  /\ top_record title year rating !! "year" = Some year
  /\ top_record title year rating !! "rating" = Some rating.
Proof.
  unfold top_record. split; [|split].
  - apply lookup_insert_eq.
  - rewrite lookup_insert_ne by discriminate. apply lookup_insert_eq.
  - do 2 (rewrite lookup_insert_ne by discriminate). apply lookup_insert_eq.
Qed.

Lemma genre_record_fields title genre rating :
  genre_record title genre rating !! "title" = Some title
  /\ genre_record title genre rating !! "rating" = Some rating.
Proof.
  unfold genre_record. split.
  - apply lookup_insert_eq.
  - do 2 (rewrite lookup_insert_ne by discriminate). apply lookup_insert_eq.
Qed.

(** C6, as claimed, fails.  For the span text [((1994))] the stored year is
    [1994]: both pairs of parentheses are gone, where removing exactly one
    enclosing pair would leave [(1994)]. *)
Lemma top_year_two_pairs :
  exists r,
    row_yield top_row (chart_row "Pulp Fiction" "((1994))" "8.9") = [r]
    /\ r !! "year" = Some "1994"
    /\ strip_one_pair "((1994))" = "(1994)"
    /\ r !! "year" <> Some (strip_one_pair "((1994))").
Proof.
  exists (top_record "Pulp Fiction" "1994" "8.9").
  split; [vm_compute; reflexivity|].
  split; [vm_compute; reflexivity|].
  split; [vm_compute; reflexivity|].
  vm_compute. discriminate.
Qed.

(** C6, amended: the year stored for a row is the located span's text with
    every leading and every trailing parenthesis character removed (any
    number of them, of either kind, at either end) and nothing else
    changed; in particular the text [(1994)] gives [1994]. *)
Theorem top_year_strips_parentheses row r :
  row_yield top_row row = [r] ->
  exists td span year pre post,
    find row "td" (Some "titleColumn") = Some td
    /\ find td "span" None = Some span
    /\ r !! "year" = Some year
    /\ year = strip "()" (text span)
    /\ text span = pre +:+ year +:+ post
    /\ all_in "()" pre = true /\ all_in "()" post = true
    /\ not_in "()" (first_char year) = true
    /\ not_in "()" (last_char year) = true
    /\ (text span = "(1994)" -> year = "1994").
Proof.
  intros Hyield.
  destruct (top_yield_cases row)
    as [Hnone | (td & a & span & td' & strong & Htd & _ & Hspan & _ & _ & Hone)].
  { rewrite Hnone in Hyield. discriminate Hyield. }
  rewrite Hone in Hyield. injection Hyield as <-.
  destruct (strip_spec "()" (text span))
    as (pre & post & Hsplit & Hpre & Hpost & Hfirst & Hlast).
  exists td, span, (strip "()" (text span)), pre, post.
  split; [exact Htd|]. split; [exact Hspan|].
  split; [apply top_record_fields|]. split; [reflexivity|].
  split; [exact Hsplit|]. split; [exact Hpre|]. split; [exact Hpost|].
  split; [exact Hfirst|]. split; [exact Hlast|].
  intros Htext. rewrite Htext. reflexivity.
Qed.

Lemma top_year_strips_parentheses_witness :
  exists td span year pre post,
    find (chart_row "The Shawshank Redemption" "(1994)" "9.2")
         "td" (Some "titleColumn") = Some td
    /\ find td "span" None = Some span
    /\ top_record "The Shawshank Redemption" "1994" "9.2" !! "year" = Some year
    /\ year = strip "()" (text span)
    /\ text span = pre +:+ year +:+ post
    /\ all_in "()" pre = true /\ all_in "()" post = true
    /\ not_in "()" (first_char year) = true
    /\ not_in "()" (last_char year) = true
    /\ (text span = "(1994)" -> year = "1994").
Proof.
  apply (top_year_strips_parentheses
           (chart_row "The Shawshank Redemption" "(1994)" "9.2")
           (top_record "The Shawshank Redemption" "1994" "9.2")).
  vm_compute. reflexivity.
Defined.

(** C7, as claimed, fails.  A row whose anchor text is [ Heat ] and whose
    strong text is [ 8.3 ] yields a record that stores both with their
    blanks: stored values do begin and end with whitespace. *)
Lemma top_row_keeps_whitespace :
  exists r,
    row_yield top_row (chart_row " Heat " "(1995)" " 8.3 ") = [r]
    /\ r !! "title" = Some " Heat "
    /\ ~ (forall field v, r !! field = Some v -> trimmed v).
Proof.
  exists (top_record " Heat " "1995" " 8.3 ").
  split; [vm_compute; reflexivity|].
  split; [apply top_record_fields|].
  intros Hall.
  destruct (Hall "title" " Heat " (proj1 (top_record_fields _ _ _))) as [H _].
  vm_compute in H. discriminate H.
Qed.

(** C7, amended: the values stored in a record are the texts of the located
    elements as they stand, with no whitespace trimming: title and rating
    are the anchor's and the strong element's text, for both variants, and
    the year is the span's text stripped of parentheses only. *)
Theorem stored_values_are_element_texts :
  (forall row r,
      row_yield top_row row = [r] ->
      exists td a span td' strong,
        find row "td" (Some "titleColumn") = Some td
        /\ find td "a" None = Some a
        /\ find td "span" None = Some span
        /\ find row "td" (Some "ratingColumn imdbRating") = Some td'
        /\ find td' "strong" None = Some strong
        /\ r !! "title" = Some (text a)
        /\ r !! "year" = Some (strip "()" (text span))
        /\ r !! "rating" = Some (text strong))
  /\ (forall genre item r,
        row_yield (genre_item genre) item = [r] ->
        exists h3 a bar strong,
          find item "h3" (Some "lister-item-header") = Some h3
          /\ find h3 "a" None = Some a
          /\ find item "div" (Some "ratings-bar") = Some bar
          /\ find bar "strong" None = Some strong
          /\ r !! "title" = Some (text a)
          /\ r !! "rating" = Some (text strong)).
Proof.
  split.
  - intros row r Hyield.
    destruct (top_yield_cases row)
      as [Hnone | (td & a & span & td' & strong & ? & ? & ? & ? & ? & Hone)].
    { rewrite Hnone in Hyield. discriminate Hyield. }
    rewrite Hone in Hyield. injection Hyield as <-.
    exists td, a, span, td', strong.
    repeat split; try assumption; apply top_record_fields.
  - intros genre item r Hyield.
    destruct (genre_yield_cases genre item)
      as [Hnone | (h3 & a & bar & strong & ? & ? & ? & ? & Hone)].
    { rewrite Hnone in Hyield. discriminate Hyield. }
    rewrite Hone in Hyield. injection Hyield as <-.
    exists h3, a, bar, strong.
    repeat split; try assumption; apply genre_record_fields.
Qed.

Lemma stored_values_are_element_texts_witness :
  (exists td a span td' strong,
      find (chart_row " Heat " "(1995)" " 8.3 ") "td" (Some "titleColumn")
      = Some td
      /\ find td "a" None = Some a
      /\ find td "span" None = Some span
      /\ find (chart_row " Heat " "(1995)" " 8.3 ") "td"
              (Some "ratingColumn imdbRating") = Some td'
      /\ find td' "strong" None = Some strong
      /\ top_record " Heat " "1995" " 8.3 " !! "title" = Some (text a)
      /\ top_record " Heat " "1995" " 8.3 " !! "year"
         = Some (strip "()" (text span))
      /\ top_record " Heat " "1995" " 8.3 " !! "rating" = Some (text strong))
  /\ (exists h3 a bar strong,
        find (lister_item " Heat " "8.3") "h3" (Some "lister-item-header")
        = Some h3
        /\ find h3 "a" None = Some a
        /\ find (lister_item " Heat " "8.3") "div" (Some "ratings-bar")
           = Some bar
        /\ find bar "strong" None = Some strong
        /\ genre_record " Heat " "Crime" "8.3" !! "title" = Some (text a)
        /\ genre_record " Heat " "Crime" "8.3" !! "rating"
           = Some (text strong)).
Proof.
  split.
  - apply (proj1 stored_values_are_element_texts
             (chart_row " Heat " "(1995)" " 8.3 ")
             (top_record " Heat " "1995" " 8.3 ")).
    vm_compute. reflexivity.
  - apply (proj2 stored_values_are_element_texts "Crime"
             (lister_item " Heat " "8.3")
             (genre_record " Heat " "Crime" "8.3")).
    vm_compute. reflexivity.
Defined.

(** What [.text] leaves out: for the anchor
    [<a>Heat<script>x</script><!--c-->!</a>] and the strong element
    [<strong>8<style>y</style></strong>], the record stores [Heat!] and
    [8]. *)
Example top_row_skips_script_and_style :
  row_yield top_row
    (Tag "tr" []
       [Tag "td" ["titleColumn"]
          [Tag "a" []
             [txt "Heat"; Tag "script" [] [SubclassString Script "x"];
              SubclassString Comment "c"; txt "!"];
           Tag "span" [] [txt "(1995)"]];
        Tag "td" ["ratingColumn"; "imdbRating"]
          [Tag "strong" []
             [txt "8"; Tag "style" [] [SubclassString Stylesheet "y"]]]])
  = [top_record "Heat!" "1995" "8"].
Proof. vm_compute. reflexivity. Qed.

(** ** C10: the shape of the records *)

Lemma top_record_dom title year rating :
  dom (top_record title year rating) = ({["title"; "year"; "rating"]} : gset string).
Proof.
  unfold top_record. rewrite !dom_insert_L, dom_empty_L. set_solver.
Qed.

Lemma genre_record_dom title genre rating :
  dom (genre_record title genre rating)
  = ({["title"; "genre"; "rating"]} : gset string).
Proof.
  unfold genre_record. rewrite !dom_insert_L, dom_empty_L. set_solver.
Qed.

Lemma scrape_top_movies_yield e limit w :
  exists rows,
    returned (scrape_top_movies e limit w) = flat_map (row_yield top_row) rows.
Proof.
  destruct (http_get e top_url) as [ex|soup] eqn:Hget.
  - exists []. rewrite (scrape_top_movies_raises e limit ex w Hget).
    destruct (isinstance ex RequestException); reflexivity.
  - destruct (scrape_top_movies_run e limit soup w Hget) as [w' [-> _]].
    eexists; reflexivity.
Qed.

Lemma scrape_by_genre_yield e genre w :
  exists items,
    returned (scrape_by_genre e genre w)
    = flat_map (row_yield (genre_item genre)) items.
Proof.
  destruct (http_get e (genre_url e genre)) as [ex|soup] eqn:Hget.
  - exists []. rewrite (scrape_by_genre_raises e genre ex w Hget).
    destruct (isinstance ex Exception); reflexivity.
  - destruct (scrape_by_genre_run e genre soup w Hget) as [w' [-> _]].
    eexists; reflexivity.
Qed.

(** C10: every record of a list scrape_top_movies returns has exactly the
    keys title, year and rating, every record of a list scrape_by_genre
    returns has exactly the keys title, genre and rating, and both loops only
    ever extend the list: the records already in it stay as they are, in
    place, at its front. *)
Theorem records_keep_variant_keys :
  (forall e limit w,
      Forall (fun r : movie => dom r = ({["title"; "year"; "rating"]} : gset string))
             (returned (scrape_top_movies e limit w)))
  /\ (forall e genre w,
        Forall (fun r : movie =>
                  dom r = ({["title"; "genre"; "rating"]} : gset string))
               (returned (scrape_by_genre e genre w)))
  /\ (forall rows ms w,
        exists new w', for_each rows top_row ms w = (Returns tt, ms ++ new, w'))
  /\ (forall genre items ms w,
        exists new w',
          for_each items (genre_item genre) ms w = (Returns tt, ms ++ new, w')).
Proof.
  split; [|split; [|split]].
  - intros e limit w. destruct (scrape_top_movies_yield e limit w) as [rows ->].
    eapply Forall_impl; [apply top_yield_records|].
    intros r (title & year & rating & ->). apply top_record_dom.
  - intros e genre w. destruct (scrape_by_genre_yield e genre w) as [items ->].
    eapply Forall_impl; [apply genre_yield_records|].
    intros r (title & rating & ->). apply genre_record_dom.
  - intros rows ms w.
    destruct (for_each_run top_row top_row_run rows ms w) as [w' [Hrun _]].
    eauto.
  - intros genre items ms w.
    destruct (for_each_run (genre_item genre) (genre_item_run genre) items ms w)
      as [w' [Hrun _]].
    eauto.
Qed.

(** ** Which rows are visited *)

Lemma collect_capped name class_ limit generator results :
  0 < limit -> Z.of_nat (length results) < limit ->
  collect name class_ limit generator results
  = results ++ take (Z.to_nat limit - length results)
                    (List.filter (matches name class_) generator).
Proof.
  intros Hpos. revert results.
  induction generator as [|i rest IH]; intros results Hlt; simpl.
  - rewrite take_nil, app_nil_r. reflexivity.
  - destruct (matches name class_ i); [|now apply IH].
    rewrite length_app. simpl.
    destruct (limit =? 0) eqn:E0; [apply Z.eqb_eq in E0; lia|]. simpl.
    replace (Z.to_nat limit - length results)%nat
      with (S (Z.to_nat limit - S (length results))) by lia.
    simpl.
    destruct (limit <=? Z.of_nat (length results + 1)) eqn:E.
    + apply Z.leb_le in E.
      replace (Z.to_nat limit - S (length results))%nat with 0%nat by lia.
      rewrite take_0. reflexivity.
    + apply Z.leb_gt in E. rewrite IH by (rewrite length_app; simpl; lia).
      rewrite length_app. simpl. rewrite <- app_assoc. simpl.
      replace (length results + 1)%nat with (S (length results)) by lia.
      reflexivity.
Qed.

Lemma collect_uncapped name class_ generator results :
  collect name class_ 0 generator results
  = results ++ List.filter (matches name class_) generator.
Proof.
  revert results. induction generator as [|i rest IH]; intros results; simpl.
  - now rewrite app_nil_r.
  - destruct (matches name class_ i); [|apply IH].
    rewrite IH, <- app_assoc. reflexivity.
Qed.

Lemma collect_negative name class_ limit generator results :
  limit < 0 ->
  collect name class_ limit generator results
  = results ++ take 1 (List.filter (matches name class_) generator).
Proof.
  intros Hneg. induction generator as [|i rest IH]; simpl.
  - now rewrite app_nil_r.
  - destruct (matches name class_ i); [|exact IH].
    destruct (limit =? 0) eqn:E0; [apply Z.eqb_eq in E0; lia|]. simpl.
    destruct (limit <=? Z.of_nat (length (results ++ [i]))) eqn:E.
    + now rewrite take_0.
    + apply Z.leb_gt in E. lia.
Qed.

Lemma find_all_capped n name class_ limit :
  0 < limit ->
  find_all n name class_ limit
  = take (Z.to_nat limit) (candidates n name class_).
Proof.
  intros Hpos. unfold find_all, candidates.
  rewrite collect_capped by (simpl; lia). simpl.
  now rewrite Nat.sub_0_r.
Qed.

(** X4: with a limit N >= 1 on a fetched page, scrape_top_movies visits the
    first N [tr] elements of the document, in document order, and returns
    what each of them yields, in that order: the limit caps the rows
    visited, not the records collected. *)
Theorem scrape_top_movies_first_rows e limit soup w :
  0 < limit ->
  http_get e top_url = GetContent soup ->
  returned (scrape_top_movies e limit w)
  = flat_map (row_yield top_row)
             (take (Z.to_nat limit) (candidates soup "tr" None)).
Proof.
  intros Hpos Hget.
  destruct (scrape_top_movies_run e limit soup w Hget) as [w' [-> _]].
  unfold returned. simpl. now rewrite find_all_capped.
Qed.

(** A failing first row uses up a limit of 1: the complete row after it is
    never looked at. *)
Lemma scrape_top_movies_first_rows_witness :
  returned (scrape_top_movies
              (serving (document [chart_row_no_rating "Ran" "(1985)";
                                  chart_row "Heat" "(1995)" "8.3"]))
              1 empty_world)
  = flat_map (row_yield top_row)
      (take (Z.to_nat 1)
         (candidates (document [chart_row_no_rating "Ran" "(1985)";
                                chart_row "Heat" "(1995)" "8.3"]) "tr" None)).
Proof.
  apply (scrape_top_movies_first_rows
           (serving (document [chart_row_no_rating "Ran" "(1985)";
                               chart_row "Heat" "(1995)" "8.3"]))
           1 (document [chart_row_no_rating "Ran" "(1985)";
                        chart_row "Heat" "(1995)" "8.3"]) empty_world).
  - lia.
  - reflexivity.
Defined.

(** X5: on a fetched page, scrape_by_genre visits the first 50 [div]
    elements of class lister-item, in document order, and returns what each
    of them yields, in that order. *)
Theorem scrape_by_genre_first_items e genre soup w :
  http_get e (genre_url e genre) = GetContent soup ->
  returned (scrape_by_genre e genre w)
  = flat_map (row_yield (genre_item genre))
             (take 50 (candidates soup "div" (Some "lister-item"))).
Proof.
  intros Hget.
  destruct (scrape_by_genre_run e genre soup w Hget) as [w' [-> _]].
  unfold returned. simpl. now rewrite find_all_capped.
Qed.

Lemma scrape_by_genre_first_items_witness :
  returned (scrape_by_genre
              (serving (document (repeat (lister_item "Heat" "8.3") 60)))
              "Crime" empty_world)
  = flat_map (row_yield (genre_item "Crime"))
      (take 50 (candidates (document (repeat (lister_item "Heat" "8.3") 60))
                           "div" (Some "lister-item"))).
Proof.
  apply (scrape_by_genre_first_items
           (serving (document (repeat (lister_item "Heat" "8.3") 60)))
           "Crime" (document (repeat (lister_item "Heat" "8.3") 60))
           empty_world).
  reflexivity.
Defined.

(** X6: a limit that is not positive is no cap of that size: with limit 0
    every [tr] element of the page is visited, and with a negative limit
    only the first one is. *)
Theorem scrape_top_movies_nonpositive_limit e limit soup w :
  limit <= 0 ->
  http_get e top_url = GetContent soup ->
  returned (scrape_top_movies e limit w)
  = flat_map (row_yield top_row)
             (if limit =? 0 then candidates soup "tr" None
              else take 1 (candidates soup "tr" None)).
Proof.
  intros Hle Hget.
  destruct (scrape_top_movies_run e limit soup w Hget) as [w' [-> _]].
  unfold returned, find_all, candidates. simpl.
  destruct (limit =? 0) eqn:E0.
  - apply Z.eqb_eq in E0. subst limit. now rewrite collect_uncapped.
  - apply Z.eqb_neq in E0. rewrite collect_negative by lia. reflexivity.
Qed.

Lemma scrape_top_movies_nonpositive_limit_witness :
  returned (scrape_top_movies
              (serving (document [chart_row "Heat" "(1995)" "8.3";
                                  chart_row "Ran" "(1985)" "8.2"]))
              (-5) empty_world)
  = flat_map (row_yield top_row)
      (if -5 =? 0
       then candidates (document [chart_row "Heat" "(1995)" "8.3";
                                  chart_row "Ran" "(1985)" "8.2"]) "tr" None
       else take 1 (candidates (document [chart_row "Heat" "(1995)" "8.3";
                                          chart_row "Ran" "(1985)" "8.2"])
                               "tr" None)).
Proof.
  apply (scrape_top_movies_nonpositive_limit
           (serving (document [chart_row "Heat" "(1995)" "8.3";
                               chart_row "Ran" "(1985)" "8.2"]))
           (-5) (document [chart_row "Heat" "(1995)" "8.3";
                           chart_row "Ran" "(1985)" "8.2"]) empty_world).
  - lia.
  - reflexivity.
Defined.

(** ** What a GET that raises leads to *)

(** X1: scrape_top_movies catches request exceptions only: any other
    exception out of the GET reaches the caller, after the one request and
    with nothing logged. *)
Theorem scrape_top_movies_propagates e limit ex w :
  http_get e top_url = GetRaises ex ->
  isinstance ex RequestException = false ->
  scrape_top_movies e limit w = (Raises ex, add_request top_url w).
Proof.
  intros Hget Hother.
  rewrite (scrape_top_movies_raises e limit ex w Hget), Hother. reflexivity.
Qed.

Lemma scrape_top_movies_propagates_witness :
  scrape_top_movies (unreachable (mk_exc ValueError "bad header")) 100
                    empty_world
  = (Raises (mk_exc ValueError "bad header"), add_request top_url empty_world).
Proof.
  apply (scrape_top_movies_propagates
           (unreachable (mk_exc ValueError "bad header")) 100
           (mk_exc ValueError "bad header") empty_world).
  - reflexivity.
  - reflexivity.
Defined.

(** X2: scrape_by_genre catches every [Exception] out of the GET, request
    exception or not, and returns the empty list after logging one error;
    only what is not an [Exception] (such as KeyboardInterrupt) reaches the
    caller. *)
Theorem scrape_by_genre_catches_exceptions e genre ex w :
  http_get e (genre_url e genre) = GetRaises ex ->
  (isinstance ex Exception = true ->
   scrape_by_genre e genre w
   = (Returns [],
      add_log ERROR ("Error scraping genre: " +:+ exc_str ex)
              (add_request (genre_url e genre) w)))
  /\ (isinstance ex Exception = false ->
      scrape_by_genre e genre w
      = (Raises ex, add_request (genre_url e genre) w)).
Proof.
  intros Hget.
  rewrite (scrape_by_genre_raises e genre ex w Hget).
  split; intros ->; reflexivity.
Qed.

Lemma scrape_by_genre_catches_exceptions_witness :
  scrape_by_genre (unreachable (mk_exc ValueError "bad header")) "Action"
                  empty_world
  = (Returns [],
     add_log ERROR "Error scraping genre: bad header"
             (add_request
                (genre_url (unreachable (mk_exc ValueError "bad header"))
                           "Action") empty_world))
  /\ scrape_by_genre (unreachable (mk_exc KeyboardInterrupt "interrupted"))
                     "Action" empty_world
     = (Raises (mk_exc KeyboardInterrupt "interrupted"),
        add_request
          (genre_url (unreachable (mk_exc KeyboardInterrupt "interrupted"))
                     "Action") empty_world).
Proof.
  split.
  - apply (proj1 (scrape_by_genre_catches_exceptions
                    (unreachable (mk_exc ValueError "bad header")) "Action"
                    (mk_exc ValueError "bad header") empty_world eq_refl)).
    reflexivity.
  - apply (proj2 (scrape_by_genre_catches_exceptions
                    (unreachable (mk_exc KeyboardInterrupt "interrupted"))
                    "Action" (mk_exc KeyboardInterrupt "interrupted")
                    empty_world eq_refl)).
    reflexivity.
Defined.

(** ** What the scrape operations leave alone *)

Lemma scrape_top_movies_io e limit w :
  same_io (add_request top_url w) (snd (scrape_top_movies e limit w)).
Proof.
  destruct (http_get e top_url) as [ex|soup] eqn:Hget.
  - rewrite (scrape_top_movies_raises e limit ex w Hget).
    destruct (isinstance ex RequestException); repeat split.
  - destruct (scrape_top_movies_run e limit soup w Hget) as [w' [-> Hio]].
    exact Hio.
Qed.

Lemma scrape_by_genre_io e genre w :
  same_io (add_request (genre_url e genre) w) (snd (scrape_by_genre e genre w)).
Proof.
  destruct (http_get e (genre_url e genre)) as [ex|soup] eqn:Hget.
  - rewrite (scrape_by_genre_raises e genre ex w Hget).
    destruct (isinstance ex Exception); repeat split.
  - destruct (scrape_by_genre_run e genre soup w Hget) as [w' [-> Hio]].
    exact Hio.
Qed.

(** X3: whatever the GET does and whatever the page holds, each scrape
    operation issues exactly one request, to its own URL, and neither opens
    nor changes any file. *)
Theorem scrape_one_request_no_files e w :
  (forall limit,
      requests (snd (scrape_top_movies e limit w)) = requests w ++ [top_url]
      /\ opened (snd (scrape_top_movies e limit w)) = opened w
      /\ files (snd (scrape_top_movies e limit w)) = files w)
  /\ (forall genre,
        requests (snd (scrape_by_genre e genre w))
        = requests w ++ [genre_url e genre]
        /\ opened (snd (scrape_by_genre e genre w)) = opened w
        /\ files (snd (scrape_by_genre e genre w)) = files w).
Proof.
  split.
  - intros limit. destruct (scrape_top_movies_io e limit w) as (-> & -> & ->).
    repeat split.
  - intros genre. destruct (scrape_by_genre_io e genre w) as (-> & -> & ->).
    repeat split.
Qed.

(** ** What the loops log *)

Lemma top_row_trace row ms w :
  exists w', top_row row ms w = (Returns tt, ms ++ row_yield top_row row, w')
             /\ log w' = log w ++ row_log top_row row.
Proof.
  unfold row_log, row_yield, top_row, top_title, top_year, top_rating.
  run_body. split_finds;
    (eexists; split; [reflexivity | simpl; rewrite ?app_nil_r; reflexivity]).
Qed.

Lemma genre_item_trace genre item ms w :
  exists w', genre_item genre item ms w
             = (Returns tt, ms ++ row_yield (genre_item genre) item, w')
             /\ log w' = log w ++ row_log (genre_item genre) item.
Proof.
  unfold row_log, row_yield, genre_item.
  run_body. split_finds;
    (eexists; split; [reflexivity | simpl; rewrite ?app_nil_r; reflexivity]).
Qed.

Lemma for_each_trace (body : node -> M unit) :
  (forall row ms w,
      exists w', body row ms w = (Returns tt, ms ++ row_yield body row, w')
                 /\ log w' = log w ++ row_log body row) ->
  forall rows ms w,
    exists w', for_each rows body ms w
               = (Returns tt, ms ++ flat_map (row_yield body) rows, w')
               /\ log w' = log w ++ flat_map (row_log body) rows.
Proof.
  intros Hbody rows. induction rows as [|row rows IH]; intros ms w; simpl.
  - exists w. rewrite !app_nil_r. split; reflexivity.
  - unfold bind. destruct (Hbody row ms w) as [w1 [-> Hw1]].
    destruct (IH (ms ++ row_yield body row) w1) as [w2 [-> Hw2]].
    exists w2. rewrite <- app_assoc. split; [reflexivity|].
    rewrite Hw2, Hw1, <- app_assoc. reflexivity.
Qed.

(** A top-chart row either gives one record and no log record, or gives
    nothing and one error. *)
Lemma top_row_outcome row :
  (exists r, row_yield top_row row = [r] /\ row_log top_row row = [])
  \/ (row_yield top_row row = []
      /\ (row_log top_row row = [skipped_no_find]
          \/ row_log top_row row = [skipped_no_text])).
Proof.
  unfold row_log, row_yield, top_row, top_title, top_year, top_rating.
  run_body.
  split_finds;
    first [ left; eexists; split; reflexivity
          | right; split; [reflexivity | left; reflexivity]
          | right; split; [reflexivity | right; reflexivity] ].
Qed.

(** A genre item never leaves a log record: its handler logs at DEBUG,
    below the level of the root logger. *)
Lemma genre_item_silent genre item : row_log (genre_item genre) item = [].
Proof.
  unfold row_log, genre_item. run_body. split_finds; reflexivity.
Qed.

Lemma top_rows_accounted rows :
  Forall (fun x => x = skipped_no_find \/ x = skipped_no_text)
         (flat_map (row_log top_row) rows)
  /\ (length (flat_map (row_yield top_row) rows)
      + length (flat_map (row_log top_row) rows) = length rows)%nat.
Proof.
  induction rows as [|row rows [IHall IHlen]]; simpl.
  - split; [constructor | reflexivity].
  - rewrite !length_app.
    destruct (top_row_outcome row) as [(r & -> & ->) | (-> & [-> | ->])];
      simpl; (split; [|lia]); auto.
Qed.

(** X7: on a fetched page, every row scrape_top_movies visits is accounted
    for: it either adds a record or logs one error saying which attribute
    access on None failed, so records plus errors equal the rows visited;
    the last log record is the INFO summary with the number of records
    returned. *)
Theorem scrape_top_movies_log e limit soup w :
  http_get e top_url = GetContent soup ->
  exists ms w' errors,
    scrape_top_movies e limit w = (Returns ms, w')
    /\ log w'
       = log w ++ errors
           ++ [(INFO, "Successfully scraped " +:+ pretty (length ms) +:+ " movies")]
    /\ Forall (fun x => x = skipped_no_find \/ x = skipped_no_text) errors
    /\ (length ms + length errors
        = length (find_all soup "tr" None limit))%nat.
Proof.
  intros Hget.
  unfold scrape_top_movies, return_movies, scrape_top_movies_body,
    try_except, bind, get_soup.
  rewrite Hget.
  destruct (for_each_trace top_row top_row_trace
              (find_all soup "tr" None limit) [] (add_request top_url w))
    as [w1 [-> Hlog]].
  unfold logging, str_len. simpl.
  destruct (top_rows_accounted (find_all soup "tr" None limit)) as [Hall Hlen].
  eexists _, _, (flat_map (row_log top_row) (find_all soup "tr" None limit)).
  split; [reflexivity|]. split; [|split; assumption].
  simpl. rewrite Hlog. simpl. rewrite <- app_assoc. reflexivity.
Qed.

Lemma scrape_top_movies_log_witness :
  exists ms w' errors,
    scrape_top_movies
      (serving (document [chart_row "Heat" "(1995)" "8.3";
                          chart_row_no_rating "Ran" "(1985)"]))
      25 empty_world = (Returns ms, w')
    /\ log w'
       = log empty_world ++ errors
           ++ [(INFO, "Successfully scraped " +:+ pretty (length ms) +:+ " movies")]
    /\ Forall (fun x => x = skipped_no_find \/ x = skipped_no_text) errors
    /\ (length ms + length errors
        = length (find_all (document [chart_row "Heat" "(1995)" "8.3";
                                      chart_row_no_rating "Ran" "(1985)"])
                           "tr" None 25))%nat.
Proof.
  apply (scrape_top_movies_log
           (serving (document [chart_row "Heat" "(1995)" "8.3";
                               chart_row_no_rating "Ran" "(1985)"]))
           25 (document [chart_row "Heat" "(1995)" "8.3";
                         chart_row_no_rating "Ran" "(1985)"]) empty_world).
  reflexivity.
Defined.

(** X8: on a fetched page, scrape_by_genre logs exactly one record, the
    INFO summary with the number of records returned and the genre as
    given: items it skips leave no trace in the log. *)
Theorem scrape_by_genre_log e genre soup w :
  http_get e (genre_url e genre) = GetContent soup ->
  exists ms w',
    scrape_by_genre e genre w = (Returns ms, w')
    /\ log w'
       = log w ++ [(INFO, "Scraped " +:+ pretty (length ms) +:+ " "
                            +:+ genre +:+ " movies")].
Proof.
  intros Hget.
  unfold scrape_by_genre, return_movies, scrape_by_genre_body,
    try_except, bind, get_soup.
  rewrite Hget.
  destruct (for_each_trace (genre_item genre) (genre_item_trace genre)
              (find_all soup "div" (Some "lister-item") 50) []
              (add_request (genre_url e genre) w))
    as [w1 [-> Hlog]].
  assert (forall items, flat_map (row_log (genre_item genre)) items = [])
    as Hsilent.
  { induction items as [|i l IH]; simpl; [reflexivity|].
    now rewrite genre_item_silent. }
  rewrite Hsilent, app_nil_r in Hlog.
  unfold logging, str_len. simpl.
  eexists _, _. split; [reflexivity|].
  simpl. rewrite Hlog. reflexivity.
Qed.

Lemma scrape_by_genre_log_witness :
  exists ms w',
    scrape_by_genre
      (serving (document [lister_item "Heat" "8.3"; lister_item_no_bar "Ran"]))
      "Crime" empty_world = (Returns ms, w')
    /\ log w'
       = log empty_world
           ++ [(INFO, "Scraped " +:+ pretty (length ms) +:+ " "
                        +:+ "Crime" +:+ " movies")].
Proof.
  apply (scrape_by_genre_log
           (serving (document [lister_item "Heat" "8.3"; lister_item_no_bar "Ran"]))
           "Crime"
           (document [lister_item "Heat" "8.3"; lister_item_no_bar "Ran"])
           empty_world).
  reflexivity.
Defined.

(** ** What the export writes *)

Lemma writerows_stops_at_key good bad rest written :
  Forall exportable good ->
  wrong_fields bad <> [] ->
  exists msg,
    writerows (good ++ bad :: rest) written
    = (written +:+ fold_right (fun r acc => record_row r +:+ acc) nil_str good,
       Some (mk_exc ValueError msg)).
Proof.
  intros Hall Hbad. revert written.
  induction Hall as [|r good Hr _ IH]; intros written.
  - simpl. unfold dict_to_list.
    destruct (wrong_fields bad) as [|k ks]; [congruence|].
    rewrite string_app_nil_r. eexists; reflexivity.
  - change ((r :: good) ++ bad :: rest) with (r :: (good ++ bad :: rest)).
    rewrite (writerows_takes r _ written Hr).
    destruct (IH (written +:+ record_row r)) as [msg ->].
    exists msg. simpl. now rewrite string_app_assoc.
Qed.

(** X9: for a non-empty batch whose records have no key outside title,
    year and rating and a line the UTF-8 codec can encode (no lone
    surrogate in it), and a path that can be written, export_to_csv
    replaces the file by the header line followed by one line per record,
    in batch order, each holding the title, year and rating values in that
    order with a missing key written as the empty text; it logs the number
    of records exported. *)
Theorem export_to_csv_writes_batch e movies filename w :
  movies <> [] ->
  Forall exportable movies ->
  fs_fault_at e filename = NoFault ->
  export_to_csv e movies filename w
  = (Returns tt,
     add_log INFO ("Exported " +:+ pretty (length movies) +:+ " movies to "
                     +:+ filename)
       (set_file filename (csv_text movies) (add_opened filename w))).
Proof.
  intros Hne Hkeys Hfault.
  destruct movies as [|m movies]; [congruence|].
  unfold export_to_csv, export_to_csv_body, try_except, bind, with_open_w,
    logging, with_body, csv_text, str_len.
  rewrite Hfault, (writerows_content (m :: movies) _ Hkeys). reflexivity.
Qed.

(** A record without a year is written with an empty second column. *)
Lemma export_to_csv_writes_batch_witness :
  export_to_csv (serving (document []))
                [top_record "Heat" "1995" "8.3"; {["title" := "Ran"]}]
                "top.csv" empty_world
  = (Returns tt,
     add_log INFO ("Exported " +:+ pretty 2%nat +:+ " movies to " +:+ "top.csv")
       (set_file "top.csv"
          (csv_text [top_record "Heat" "1995" "8.3"; {["title" := "Ran"]}])
          (add_opened "top.csv" empty_world))).
Proof.
  apply (export_to_csv_writes_batch (serving (document []))
           [top_record "Heat" "1995" "8.3"; {["title" := "Ran"]}]
           "top.csv" empty_world).
  - discriminate.
  - apply Forall_cons_2; [|apply Forall_cons_2; [|apply Forall_nil_2]];
      compute_done.
  - reflexivity.
Defined.

Example csv_text_missing_year :
  csv_text [top_record "Heat" "1995" "8.3"; {["title" := "Ran"]}]
  = "title,year,rating" +:+ lineterminator
      +:+ "Heat,1995,8.3" +:+ lineterminator
      +:+ "Ran,," +:+ lineterminator.
Proof. vm_compute. reflexivity. Qed.

(** X10: export_to_csv touches no path but the one it is given, issues no
    request and makes no lookup, whatever the batch and whatever the file
    system does. *)
Theorem export_to_csv_other_paths e movies filename w path :
  path <> filename ->
  files (snd (export_to_csv e movies filename w)) !! path = files w !! path
  /\ requests (snd (export_to_csv e movies filename w)) = requests w
  /\ queries (snd (export_to_csv e movies filename w)) = queries w.
Proof.
  intros Hne.
  destruct movies as [|m movies]; [repeat split|].
  unfold export_to_csv, export_to_csv_body, try_except, bind, with_open_w,
    logging.
  destruct (fs_fault_at e filename) as [|ex|kept ex]; simpl.
  - destruct (snd (with_body (m :: movies))) as [ex|]; simpl.
    + destruct (isinstance ex IOError); simpl;
        (split; [now rewrite lookup_insert_ne by congruence | split; reflexivity]).
    + split; [now rewrite lookup_insert_ne by congruence | split; reflexivity].
  - destruct (isinstance ex IOError); simpl; repeat split.
  - destruct (isinstance ex IOError); simpl;
      (split; [now rewrite lookup_insert_ne by congruence | split; reflexivity]).
Qed.

Lemma export_to_csv_other_paths_witness :
  files (snd (export_to_csv (serving (document []))
                [top_record "Heat" "1995" "8.3"] "top.csv"
                (set_file "notes.txt" "keep" empty_world))) !! "notes.txt"
  = files (set_file "notes.txt" "keep" empty_world) !! "notes.txt"
  /\ requests (snd (export_to_csv (serving (document []))
                      [top_record "Heat" "1995" "8.3"] "top.csv"
                      (set_file "notes.txt" "keep" empty_world)))
     = requests (set_file "notes.txt" "keep" empty_world)
  /\ queries (snd (export_to_csv (serving (document []))
                     [top_record "Heat" "1995" "8.3"] "top.csv"
                     (set_file "notes.txt" "keep" empty_world)))
     = queries (set_file "notes.txt" "keep" empty_world).
Proof.
  apply (export_to_csv_other_paths (serving (document []))
           [top_record "Heat" "1995" "8.3"] "top.csv"
           (set_file "notes.txt" "keep" empty_world) "notes.txt").
  discriminate.
Defined.

(** X11: when the file cannot be opened, a non-empty batch leaves every
    file as it was; an IOError is logged as an error and the method
    returns, any other exception reaches the caller with nothing logged. *)
Theorem export_to_csv_open_failure e movies filename ex w :
  movies <> [] ->
  fs_fault_at e filename = OpenFault ex ->
  (isinstance ex IOError = true ->
   export_to_csv e movies filename w
   = (Returns tt,
      add_log ERROR ("File write error: " +:+ exc_str ex)
              (add_opened filename w)))
  /\ (isinstance ex IOError = false ->
      export_to_csv e movies filename w = (Raises ex, add_opened filename w))
  /\ files (snd (export_to_csv e movies filename w)) = files w.
Proof.
  intros Hne Hfault.
  destruct movies as [|m movies]; [congruence|].
  unfold export_to_csv, export_to_csv_body, try_except, bind, with_open_w,
    logging.
  rewrite Hfault.
  split; [intros ->; reflexivity|].
  split; [intros ->; reflexivity|].
  destruct (isinstance ex IOError); reflexivity.
Qed.

Lemma export_to_csv_open_failure_witness :
  (isinstance (mk_exc OSError "Permission denied") IOError = true ->
   export_to_csv (read_only (mk_exc OSError "Permission denied"))
                 [top_record "Heat" "1995" "8.3"] "top.csv" empty_world
   = (Returns tt,
      add_log ERROR ("File write error: "
                       +:+ exc_str (mk_exc OSError "Permission denied"))
              (add_opened "top.csv" empty_world)))
  /\ (isinstance (mk_exc OSError "Permission denied") IOError = false ->
      export_to_csv (read_only (mk_exc OSError "Permission denied"))
                    [top_record "Heat" "1995" "8.3"] "top.csv" empty_world
      = (Raises (mk_exc OSError "Permission denied"),
         add_opened "top.csv" empty_world))
  /\ files (snd (export_to_csv (read_only (mk_exc OSError "Permission denied"))
                   [top_record "Heat" "1995" "8.3"] "top.csv" empty_world))
     = files empty_world.
Proof.
  apply (export_to_csv_open_failure
           (read_only (mk_exc OSError "Permission denied"))
           [top_record "Heat" "1995" "8.3"] "top.csv"
           (mk_exc OSError "Permission denied") empty_world).
  - discriminate.
  - reflexivity.
Defined.

(** X12: when a record with a key outside title, year and rating follows
    records that have none (and whose lines the UTF-8 codec can encode),
    and the path can be written, export_to_csv raises ValueError to its
    caller and logs nothing, yet the file has been replaced: it holds the
    header and the lines of the records before the offending one. *)
Theorem export_to_csv_stops_at_extra_key e good bad rest filename w :
  Forall exportable good ->
  wrong_fields bad <> [] ->
  fs_fault_at e filename = NoFault ->
  exists msg,
    export_to_csv e (good ++ bad :: rest) filename w
    = (Raises (mk_exc ValueError msg),
       set_file filename (csv_text good) (add_opened filename w)).
Proof.
  intros Hgood Hbad Hfault.
  destruct (writerows_stops_at_key good bad rest (csv_row fieldnames)
              Hgood Hbad) as [msg Hrows].
  exists msg.
  unfold export_to_csv, export_to_csv_body.
  destruct (good ++ bad :: rest) as [|m ms] eqn:Hbatch.
  { destruct good; discriminate Hbatch. }
  unfold try_except, bind, with_open_w, logging, with_body, csv_text.
  rewrite Hfault, Hrows. reflexivity.
Qed.

Lemma export_to_csv_stops_at_extra_key_witness :
  exists msg,
    export_to_csv (serving (document []))
                  ([top_record "Heat" "1995" "8.3"]
                     ++ genre_record "Ran" "Drama" "8.2" :: [])
                  "mixed.csv" empty_world
    = (Raises (mk_exc ValueError msg),
       set_file "mixed.csv" (csv_text [top_record "Heat" "1995" "8.3"])
                (add_opened "mixed.csv" empty_world)).
Proof.
  apply (export_to_csv_stops_at_extra_key (serving (document []))
           [top_record "Heat" "1995" "8.3"]
           (genre_record "Ran" "Drama" "8.2") [] "mixed.csv" empty_world).
  - apply Forall_cons_2; [|apply Forall_nil_2]. compute_done.
  - vm_compute. discriminate.
  - reflexivity.
Defined.

(** ** How scraping and exporting compose *)

Lemma exportable_returns e movies filename w :
  Forall exportable movies ->
  fault_is_IOError (fs_fault_at e filename) = true ->
  exists w', export_to_csv e movies filename w = (Returns tt, w').
Proof.
  intros Hkeys Hfault.
  destruct movies as [|m movies]; [eexists; reflexivity|].
  unfold export_to_csv, export_to_csv_body, try_except, bind, with_open_w,
    logging, with_body.
  destruct (fs_fault_at e filename) as [|ex|kept ex]; simpl in Hfault.
  - rewrite (writerows_content (m :: movies) _ Hkeys). simpl.
    eexists; reflexivity.
  - rewrite Hfault. simpl. eexists; reflexivity.
  - rewrite Hfault. simpl. eexists; reflexivity.
Qed.

Lemma top_batch_keys e limit w :
  Forall (fun r : movie => dom r ⊆ list_to_set fieldnames)
         (returned (scrape_top_movies e limit w)).
Proof.
  destruct (scrape_top_movies_yield e limit w) as [rows ->].
  eapply Forall_impl; [apply top_yield_records|].
  intros r (title & year & rating & ->). rewrite top_record_dom.
  unfold fieldnames. set_solver.
Qed.

(** X13: a batch scrape_top_movies returned is never refused for its keys:
    when the UTF-8 codec can encode the line of each of its records and the
    file system raises nothing but IOErrors, export_to_csv returns normally
    on it, for every page, limit and filename. *)
Theorem top_batch_exports e limit w e' filename w2 :
  Forall (fun r : movie => encodable (record_row r) = true)
         (returned (scrape_top_movies e limit w)) ->
  fault_is_IOError (fs_fault_at e' filename) = true ->
  exists w',
    export_to_csv e' (returned (scrape_top_movies e limit w)) filename w2
    = (Returns tt, w').
Proof.
  intros Henc Hfault. apply exportable_returns; [|exact Hfault].
  pose proof (top_batch_keys e limit w) as Hkeys.
  induction Henc as [|r ms Hr _ IH]; [constructor|].
  inversion Hkeys; subst. constructor; [split; assumption | auto].
Qed.

Lemma top_batch_exports_witness :
  exists w',
    export_to_csv (serving (document []))
      (returned (scrape_top_movies
                   (serving (document [chart_row "Heat" "(1995)" "8.3"]))
                   25 empty_world))
      "top_imdb_movies.csv" empty_world
    = (Returns tt, w').
Proof.
  apply (top_batch_exports
           (serving (document [chart_row "Heat" "(1995)" "8.3"])) 25
           empty_world (serving (document [])) "top_imdb_movies.csv"
           empty_world).
  - apply Forall_cons_2; [|apply Forall_nil_2]. vm_compute. reflexivity.
  - reflexivity.
Defined.

Lemma genre_record_wrong_fields title genre rating :
  wrong_fields (genre_record title genre rating) = ["genre"].
Proof.
  unfold wrong_fields. rewrite genre_record_dom. vm_compute. reflexivity.
Qed.

(** X14: no record scrape_by_genre returned can be exported: on a
    non-empty batch of it, with a path that can be written, export_to_csv
    raises the ValueError naming the genre field, leaving a file that holds
    the header line alone. *)
Theorem genre_batch_does_not_export e genre w e' filename w2 :
  returned (scrape_by_genre e genre w) <> [] ->
  fs_fault_at e' filename = NoFault ->
  export_to_csv e' (returned (scrape_by_genre e genre w)) filename w2
  = (Raises (mk_exc ValueError
               "dict contains fields not in fieldnames: 'genre'"),
     set_file filename (csv_text []) (add_opened filename w2)).
Proof.
  intros Hne Hfault.
  destruct (scrape_by_genre_yield e genre w) as [items Hitems].
  pose proof (genre_yield_records genre items) as Hrecs.
  rewrite <- Hitems in Hrecs.
  destruct (returned (scrape_by_genre e genre w)) as [|m ms]; [congruence|].
  apply Forall_inv in Hrecs. destruct Hrecs as (title & rating & ->).
  unfold export_to_csv, export_to_csv_body, try_except, bind, with_open_w,
    logging, with_body, csv_text.
  rewrite Hfault. simpl. unfold dict_to_list.
  rewrite genre_record_wrong_fields. simpl.
  rewrite string_app_nil_r. reflexivity.
Qed.

Lemma genre_batch_does_not_export_witness :
  export_to_csv (serving (document []))
    (returned (scrape_by_genre (serving (document [lister_item "Heat" "8.3"]))
                               "Crime" empty_world))
    "genre.csv" empty_world
  = (Raises (mk_exc ValueError
               "dict contains fields not in fieldnames: 'genre'"),
     set_file "genre.csv" (csv_text []) (add_opened "genre.csv" empty_world)).
Proof.
  apply (genre_batch_does_not_export
           (serving (document [lister_item "Heat" "8.3"])) "Crime" empty_world
           (serving (document [])) "genre.csv" empty_world).
  - vm_compute. discriminate.
  - reflexivity.
Defined.

(** ** The genre's letter case *)

Lemma genre_record_regenre title g1 g2 rating :
  genre_record title g1 rating = <["genre" := g1]> (genre_record title g2 rating).
Proof.
  unfold genre_record. apply map_eq. intros k.
  destruct (decide (k = "genre")) as [-> | Hk].
  - rewrite lookup_insert_eq.
    rewrite lookup_insert_ne by discriminate. apply lookup_insert_eq.
  - rewrite (lookup_insert_ne _ "genre" k) by congruence.
    destruct (decide (k = "title")) as [-> | Ht].
    + now rewrite !lookup_insert_eq.
    + rewrite !(lookup_insert_ne _ "title" k) by congruence.
      now rewrite !(lookup_insert_ne _ "genre" k) by congruence.
Qed.

Lemma genre_yield_regenre g1 g2 item :
  row_yield (genre_item g1) item
  = map (insert "genre" g1) (row_yield (genre_item g2) item).
Proof.
  unfold row_yield, genre_item. run_body.
  split_finds;
    first [reflexivity | now rewrite (genre_record_regenre _ g1 g2)].
Qed.

(** X15: the genre's letter case decides nothing but the genre field: two
    genre strings that [str.lower] maps to the same text are fetched from
    the same URL, and the records returned for the one are those returned
    for the other with the genre field set to the first string. *)
Theorem scrape_by_genre_case e g1 g2 w :
  str_lower e g1 = str_lower e g2 ->
  genre_url e g1 = genre_url e g2
  /\ returned (scrape_by_genre e g1 w)
     = map (insert "genre" g1) (returned (scrape_by_genre e g2 w)).
Proof.
  intros Hlow.
  assert (genre_url e g1 = genre_url e g2) as Hurl.
  { unfold genre_url. now rewrite Hlow. }
  split; [exact Hurl|].
  destruct (http_get e (genre_url e g1)) as [ex|soup] eqn:Hget.
  - rewrite (scrape_by_genre_raises e g1 ex w Hget).
    rewrite Hurl in Hget. rewrite (scrape_by_genre_raises e g2 ex w Hget).
    destruct (isinstance ex Exception); reflexivity.
  - destruct (scrape_by_genre_run e g1 soup w Hget) as [w1 [-> _]].
    rewrite Hurl in Hget.
    destruct (scrape_by_genre_run e g2 soup w Hget) as [w2 [-> _]].
    unfold returned. simpl.
    induction (find_all soup "div" (Some "lister-item") 50) as [|i l IH];
      simpl; [reflexivity|].
    rewrite map_app, <- IH, <- genre_yield_regenre. reflexivity.
Qed.

Lemma scrape_by_genre_case_witness :
  genre_url (serving (document [lister_item "Heat" "8.3"])) "ACTION"
  = genre_url (serving (document [lister_item "Heat" "8.3"])) "Action"
  /\ returned (scrape_by_genre (serving (document [lister_item "Heat" "8.3"]))
                               "ACTION" empty_world)
     = map (insert "genre" "ACTION")
           (returned (scrape_by_genre
                        (serving (document [lister_item "Heat" "8.3"]))
                        "Action" empty_world)).
Proof.
  apply (scrape_by_genre_case
           (serving (document [lister_item "Heat" "8.3"]))
           "ACTION" "Action" empty_world).
  reflexivity.
Defined.

(** ** The script *)

Lemma export_to_csv_frame e movies filename w :
  requests (snd (export_to_csv e movies filename w)) = requests w
  /\ (opened (snd (export_to_csv e movies filename w)) = opened w
      \/ opened (snd (export_to_csv e movies filename w))
         = opened w ++ [filename])
  /\ (forall path, path <> filename ->
        files (snd (export_to_csv e movies filename w)) !! path
        = files w !! path).
Proof.
  destruct movies as [|m movies].
  { split; [reflexivity|]. split; [left; reflexivity|]. reflexivity. }
  unfold export_to_csv, export_to_csv_body, try_except, bind, with_open_w,
    logging.
  destruct (fs_fault_at e filename) as [|ex|kept ex]; simpl.
  - destruct (snd (with_body (m :: movies))) as [ex|]; simpl;
      [destruct (isinstance ex IOError); simpl|];
      (split; [reflexivity|]; split; [right; reflexivity|];
       intros path Hne; now rewrite lookup_insert_ne by congruence).
  - destruct (isinstance ex IOError); simpl;
      (split; [reflexivity|]; split; [right; reflexivity|]; reflexivity).
  - destruct (isinstance ex IOError); simpl;
      (split; [reflexivity|]; split; [right; reflexivity|];
       intros path Hne; now rewrite lookup_insert_ne by congruence).
Qed.

Lemma scrape_top_movies_returns e limit w :
  get_caught RequestException (http_get e top_url) = true ->
  scrape_top_movies e limit w
  = (Returns (returned (scrape_top_movies e limit w)),
     snd (scrape_top_movies e limit w)).
Proof.
  intros Hget. destruct (http_get e top_url) as [ex|soup] eqn:E.
  - simpl in Hget. rewrite (scrape_top_movies_raises e limit ex w E), Hget.
    reflexivity.
  - destruct (scrape_top_movies_run e limit soup w E) as [w' [-> _]].
    reflexivity.
Qed.

Lemma scrape_by_genre_returns e genre w :
  get_caught Exception (http_get e (genre_url e genre)) = true ->
  scrape_by_genre e genre w
  = (Returns (returned (scrape_by_genre e genre w)),
     snd (scrape_by_genre e genre w))
  /\ (length (returned (scrape_by_genre e genre w)) <= 50)%nat.
Proof.
  intros Hget. destruct (http_get e (genre_url e genre)) as [ex|soup] eqn:E.
  - simpl in Hget. rewrite (scrape_by_genre_raises e genre ex w E), Hget.
    split; [reflexivity | simpl; lia].
  - destruct (scrape_by_genre_run e genre soup w E) as [w' [-> _]].
    split; [reflexivity|]. unfold returned. simpl.
    pose proof (yield_length (genre_item genre)
                  (find_all soup "div" (Some "lister-item") 50)
                  (genre_yield_short genre)).
    pose proof (find_all_bounded soup "div" (Some "lister-item") 50). lia.
Qed.

(** X16: when each GET gives a page or raises what its method catches
    (a request exception for the chart, any Exception for the genre), the
    UTF-8 codec can encode the line of each chart record, the file system
    raises nothing but IOErrors, and [str.lower] takes Action to action,
    the script runs to its end: it prints the number of Action records
    found, at most 50, having made two requests, the chart first and then
    the genre search with the genre in lower case, opened at most the file
    top_imdb_movies.csv, and changed no other file. *)
Theorem main_completes e w :
  get_caught RequestException (http_get e top_url) = true ->
  get_caught Exception (http_get e (genre_url e "Action")) = true ->
  Forall (fun r : movie => encodable (record_row r) = true)
         (returned (scrape_top_movies e 25 w)) ->
  fault_is_IOError (fs_fault_at e "top_imdb_movies.csv") = true ->
  str_lower e "Action" = "action" ->
  exists n w',
    main e w = (Returns ("Found " +:+ pretty n +:+ " action movies"), w')
    /\ (n <= 50)%nat
    /\ requests w'
       = requests w
           ++ ["https://www.imdb.com/chart/top250/";
               "https://www.imdb.com/search/title/?genres=action&sort=user_rating,-popularity"]
    /\ (opened w' = opened w \/ opened w' = opened w ++ ["top_imdb_movies.csv"])
    /\ (forall path, path <> "top_imdb_movies.csv" ->
          files w' !! path = files w !! path).
Proof.
  intros Htop Hgenre Henc Hfault Hlow. unfold main.
  rewrite (scrape_top_movies_returns e 25 w Htop).
  destruct (scrape_top_movies_io e 25 w) as (Hr1 & Ho1 & Hf1).
  assert (Forall exportable (returned (scrape_top_movies e 25 w))) as Hexp0.
  { pose proof (top_batch_keys e 25 w) as Hkeys.
    induction Henc as [|r ms Hr _ IH]; [constructor|].
    inversion Hkeys; subst. constructor; [split; assumption | auto]. }
  set (w1 := snd (scrape_top_movies e 25 w)) in *.
  destruct (exportable_returns e (returned (scrape_top_movies e 25 w))
              "top_imdb_movies.csv" w1 Hexp0 Hfault)
    as [w2 Hexp].
  destruct (export_to_csv_frame e (returned (scrape_top_movies e 25 w))
              "top_imdb_movies.csv" w1) as (Hr2 & Ho2 & Hf2).
  rewrite Hexp in *. simpl in Hr2, Ho2, Hf2.
  destruct (scrape_by_genre_returns e "Action" w2 Hgenre) as [Hrun Hlen].
  destruct (scrape_by_genre_io e "Action" w2) as (Hr3 & Ho3 & Hf3).
  rewrite Hrun.
  exists (length (returned (scrape_by_genre e "Action" w2))),
         (snd (scrape_by_genre e "Action" w2)).
  split; [reflexivity|]. split; [exact Hlen|].
  split; [|split].
  - rewrite Hr3. simpl. rewrite Hr2, Hr1. simpl.
    rewrite <- app_assoc. unfold genre_url. rewrite Hlow. reflexivity.
  - rewrite Ho3. simpl. rewrite Ho1 in Ho2. simpl in Ho2. exact Ho2.
  - intros path Hne. rewrite Hf3. simpl. rewrite (Hf2 path Hne), Hf1.
    reflexivity.
Qed.

Lemma main_completes_witness :
  exists n w',
    main (serving (document [chart_row "Heat" "(1995)" "8.3";
                             lister_item "Ran" "8.2"])) empty_world
    = (Returns ("Found " +:+ pretty n +:+ " action movies"), w')
    /\ (n <= 50)%nat
    /\ requests w'
       = requests empty_world
           ++ ["https://www.imdb.com/chart/top250/";
               "https://www.imdb.com/search/title/?genres=action&sort=user_rating,-popularity"]
    /\ (opened w' = opened empty_world
        \/ opened w' = opened empty_world ++ ["top_imdb_movies.csv"])
    /\ (forall path, path <> "top_imdb_movies.csv" ->
          files w' !! path = files empty_world !! path).
Proof.
  apply (main_completes
           (serving (document [chart_row "Heat" "(1995)" "8.3";
                               lister_item "Ran" "8.2"])) empty_world).
  - reflexivity.
  - reflexivity.
  - apply Forall_cons_2; [|apply Forall_nil_2]. vm_compute. reflexivity.
  - reflexivity.
  - reflexivity.
Defined.

(** The script on that page: one chart record exported, one Action record
    counted. *)
Example main_on_fixture :
  fst (main (serving (document [chart_row "Heat" "(1995)" "8.3";
                                lister_item "Ran" "8.2"])) empty_world)
  = Returns "Found 1 action movies".
Proof. vm_compute. reflexivity. Qed.

(** X17: when the chart GET raises something that is not a request
    exception, the script ends there with that exception: nothing is
    exported, no file is opened and the genre search is never requested. *)
Theorem main_stops_on_uncaught e ex w :
  http_get e top_url = GetRaises ex ->
  isinstance ex RequestException = false ->
  main e w = (Raises ex, add_request top_url w).
Proof.
  intros Hget Hother. unfold main.
  rewrite (scrape_top_movies_raises e 25 ex w Hget), Hother. reflexivity.
Qed.

Lemma main_stops_on_uncaught_witness :
  main (unreachable (mk_exc KeyboardInterrupt "interrupted")) empty_world
  = (Raises (mk_exc KeyboardInterrupt "interrupted"),
     add_request top_url empty_world).
Proof.
  apply (main_stops_on_uncaught
           (unreachable (mk_exc KeyboardInterrupt "interrupted"))
           (mk_exc KeyboardInterrupt "interrupted") empty_world).
  - reflexivity.
  - reflexivity.
Defined.
